(** * Webhook relay: signature verification, record derivation and remote upsert

    A shallow embedding of [src/app/api/webhook/route.ts].

    - JavaScript strings are sequences of UTF-16 code units ([js_string]);
      [Buffer.from] and [Hmac.update] see their UTF-8 encoding, and
      [req.text()] decodes the bytes of the body as UTF-8.
    - [createHmac('sha256', key)] is HMAC (RFC 2104) over SHA-256 (FIPS 180-4),
      written out so that signatures can be evaluated.
    - [JSON.parse] is a recursive-descent parser of the JSON grammar.
    - The handler runs in a small monad that records the outgoing [fetch]
      calls and propagates thrown exceptions. *)

From Stdlib Require Import ZArith List String Ascii Bool Lia.
Import ListNotations.
Local Open Scope Z_scope.

(* [length] is the length of a list throughout. *)
Local Abbreviation length := Datatypes.length (only parsing).

(** ** Strings and buffers *)

(** A JavaScript string: UTF-16 code units, each in [0, 65536). *)
Definition js_string := list Z.

(** A Node [Buffer]: bytes, each in [0, 256). *)
Definition Buffer := list Z.

(** String literals of the source, which are all ASCII. *)
Definition lit (s : string) : js_string :=
  map (fun a => Z.of_N (N_of_ascii a)) (list_ascii_of_string s).

(** The same, with an apostrophe standing for the quotation mark (U+0022),
    to write JSON text. *)
Definition quoted (s : string) : js_string :=
  map (fun c => if c =? 39 then 34 else c) (lit s).

Definition is_ascii (c : Z) : bool := (0 <=? c) && (c <? 128).

Definition is_high_surrogate (c : Z) : bool := (0xD800 <=? c) && (c <=? 0xDBFF).
Definition is_low_surrogate (c : Z) : bool := (0xDC00 <=? c) && (c <=? 0xDFFF).

(** UTF-8 bytes of one code point above U+007F. *)
Definition utf8_code_point (cp : Z) : Buffer :=
  if cp <? 0x800 then
    [Z.lor 0xC0 (Z.shiftr cp 6); Z.lor 0x80 (Z.land cp 0x3F)]
  else if cp <? 0x10000 then
    [Z.lor 0xE0 (Z.shiftr cp 12);
     Z.lor 0x80 (Z.land (Z.shiftr cp 6) 0x3F);
     Z.lor 0x80 (Z.land cp 0x3F)]
  else
    [Z.lor 0xF0 (Z.shiftr cp 18);
     Z.lor 0x80 (Z.land (Z.shiftr cp 12) 0x3F);
     Z.lor 0x80 (Z.land (Z.shiftr cp 6) 0x3F);
     Z.lor 0x80 (Z.land cp 0x3F)].

(** The three bytes of U+FFFD, which stand for an unpaired surrogate. *)
Definition utf8_replacement : Buffer := [0xEF; 0xBF; 0xBD].

(** [Buffer.from(s)] with the default encoding ['utf8']: a surrogate pair is
    one code point of four bytes, an unpaired surrogate is written as U+FFFD. *)
Fixpoint Buffer_from (s : js_string) : Buffer :=
  match s with
  | [] => []
  | c :: rest =>
      if is_ascii c then c :: Buffer_from rest
      else if is_high_surrogate c then
        match rest with
        | d :: rest' =>
            if is_low_surrogate d then
              utf8_code_point (0x10000 + Z.shiftl (c - 0xD800) 10 + (d - 0xDC00))
                ++ Buffer_from rest'
            else utf8_replacement ++ Buffer_from rest
        | [] => utf8_replacement
        end
      else if is_low_surrogate c then utf8_replacement ++ Buffer_from rest
      else utf8_code_point c ++ Buffer_from rest
  end.

Definition in_range (lo hi b : Z) : bool := (lo <=? b) && (b <=? hi).

(** One more continuation byte: its low six bits go below the code point. *)
Definition utf8_more (cp b : Z) : Z := Z.lor (Z.shiftl cp 6) (Z.land b 0x3F).

(** The UTF-16 code units of a code point that was decoded. *)
Definition utf16_units (cp : Z) : js_string :=
  if cp <? 0x10000 then [cp]
  else [0xD800 + Z.shiftr (cp - 0x10000) 10; 0xDC00 + Z.land (cp - 0x10000) 0x3FF].

(** The UTF-8 decoder of the platform (Encoding Standard), which never
    fails: a lead byte sets the number of continuation bytes and the range
    of the first of them; a byte that cannot start or continue a sequence
    ends the sequence with U+FFFD and, when it is a continuation that fails,
    is read again as the start of the next one; a sequence cut short by the
    end of the input is one U+FFFD. *)
Fixpoint utf8_decode (bs : Buffer) : js_string :=
  match bs with
  | [] => []
  | b0 :: r0 =>
      if in_range 0x00 0x7F b0 then b0 :: utf8_decode r0
      else if in_range 0xC2 0xDF b0 then
        match r0 with
        | [] => [0xFFFD]
        | b1 :: r1 =>
            if in_range 0x80 0xBF b1 then
              utf8_more (Z.land b0 0x1F) b1 :: utf8_decode r1
            else 0xFFFD :: utf8_decode r0
        end
      else if in_range 0xE0 0xEF b0 then
        match r0 with
        | [] => [0xFFFD]
        | b1 :: r1 =>
            if in_range (if b0 =? 0xE0 then 0xA0 else 0x80)
                        (if b0 =? 0xED then 0x9F else 0xBF) b1 then
              match r1 with
              | [] => [0xFFFD]
              | b2 :: r2 =>
                  if in_range 0x80 0xBF b2 then
                    utf8_more (utf8_more (Z.land b0 0xF) b1) b2 :: utf8_decode r2
                  else 0xFFFD :: utf8_decode r1
              end
            else 0xFFFD :: utf8_decode r0
        end
      else if in_range 0xF0 0xF4 b0 then
        match r0 with
        | [] => [0xFFFD]
        | b1 :: r1 =>
            if in_range (if b0 =? 0xF0 then 0x90 else 0x80)
                        (if b0 =? 0xF4 then 0x8F else 0xBF) b1 then
              match r1 with
              | [] => [0xFFFD]
              | b2 :: r2 =>
                  if in_range 0x80 0xBF b2 then
                    match r2 with
                    | [] => [0xFFFD]
                    | b3 :: r3 =>
                        if in_range 0x80 0xBF b3 then
                          utf16_units
                            (utf8_more (utf8_more (utf8_more (Z.land b0 0x7) b1) b2) b3)
                            ++ utf8_decode r3
                        else 0xFFFD :: utf8_decode r2
                    end
                  else 0xFFFD :: utf8_decode r1
              end
            else 0xFFFD :: utf8_decode r0
        end
      else 0xFFFD :: utf8_decode r0
  end.

(** [await req.text()] on a body received as [bytes]: a leading byte order
    mark is dropped, and the rest is decoded as UTF-8. *)
Definition Body_text (bytes : Buffer) : js_string :=
  match bytes with
  | b0 :: b1 :: b2 :: rest =>
      if (b0 =? 0xEF) && (b1 =? 0xBB) && (b2 =? 0xBF) then utf8_decode rest
      else utf8_decode bytes
  | _ => utf8_decode bytes
  end.

(** [s.isWellFormed()]: every surrogate of [s] is half of a pair. *)
Fixpoint isWellFormed (s : js_string) : bool :=
  match s with
  | [] => true
  | c :: rest =>
      if is_high_surrogate c then
        match rest with
        | d :: rest' => is_low_surrogate d && isWellFormed rest'
        | [] => false
        end
      else in_range 0 0xFFFF c && negb (is_low_surrogate c) && isWellFormed rest
  end.

(** Equality of code-unit sequences, as [===] on two strings. *)
Fixpoint string_eqb (s t : js_string) : bool :=
  match s, t with
  | [], [] => true
  | c :: s', d :: t' => (c =? d) && string_eqb s' t'
  | _, _ => false
  end.

(** ** SHA-256 (FIPS 180-4) on 32-bit words held in [Z] *)

Module SHA256.

Definition wrap32 (x : Z) : Z := x mod 2 ^ 32.

Definition add32 (x y : Z) : Z := wrap32 (x + y).

Definition rotr (n x : Z) : Z :=
  Z.lor (Z.shiftr x n) (wrap32 (Z.shiftl x (32 - n))).

Definition not32 (x : Z) : Z := Z.lxor x 0xFFFFFFFF.

Definition Ch (x y z : Z) : Z := Z.lxor (Z.land x y) (Z.land (not32 x) z).
Definition Maj (x y z : Z) : Z :=
  Z.lxor (Z.lxor (Z.land x y) (Z.land x z)) (Z.land y z).
Definition bsig0 (x : Z) : Z := Z.lxor (Z.lxor (rotr 2 x) (rotr 13 x)) (rotr 22 x).
Definition bsig1 (x : Z) : Z := Z.lxor (Z.lxor (rotr 6 x) (rotr 11 x)) (rotr 25 x).
Definition ssig0 (x : Z) : Z := Z.lxor (Z.lxor (rotr 7 x) (rotr 18 x)) (Z.shiftr x 3).
Definition ssig1 (x : Z) : Z := Z.lxor (Z.lxor (rotr 17 x) (rotr 19 x)) (Z.shiftr x 10).

(** The round constants are the first 32 fractional bits of the cube roots
    of the first 64 primes, the initial state those of the square roots of
    the first 8: both are computed from that description. *)

Fixpoint has_divisor (n : Z) (cands : list Z) : bool :=
  match cands with
  | [] => false
  | d :: ds => ((1 <? d) && (d <? n) && (n mod d =? 0)) || has_divisor n ds
  end.

Fixpoint primes_upto (fuel : nat) (n : Z) (found : list Z) : list Z :=
  match fuel with
  | O => found
  | S fuel' =>
      primes_upto fuel' (n + 1)
        (if has_divisor n found then found else found ++ [n])
  end.

(** The primes below 312: there are 64 of them. *)
Definition primes64 : list Z := Eval vm_compute in primes_upto 310 2 [].

(** [iroot k n bits acc]: the largest [r >= acc] with [r ^ k <= n], searched
    over the low [bits] bits. *)
Fixpoint iroot (k n : Z) (bits : nat) (acc : Z) : Z :=
  match bits with
  | O => acc
  | S b =>
      let c := acc + 2 ^ Z.of_nat b in
      if c ^ k <=? n then iroot k n b c else iroot k n b acc
  end.

Definition frac_root (k p : Z) : Z :=
  wrap32 (iroot k (p * 2 ^ (32 * k)) 40 0).

Definition K256 : list Z := Eval vm_compute in map (frac_root 3) primes64.
Definition H256 : list Z := Eval vm_compute in map (frac_root 2) (firstn 8 primes64).

(** Padding: a 1 bit, zeros up to 56 mod 64 bytes, the bit length on 8 bytes. *)
Fixpoint be_bytes (n : nat) (x : Z) : Buffer :=
  match n with
  | O => []
  | S n' => be_bytes n' (Z.shiftr x 8) ++ [Z.land x 0xFF]
  end.

Definition pad (msg : Buffer) : Buffer :=
  let len := Z.of_nat (length msg) in
  let zeros := Z.to_nat ((55 - len) mod 64) in
  msg ++ [0x80] ++ repeat 0 zeros ++ be_bytes 8 (8 * len).

Fixpoint words_of_bytes (bs : Buffer) : list Z :=
  match bs with
  | b0 :: b1 :: b2 :: b3 :: rest =>
      (Z.shiftl b0 24 + Z.shiftl b1 16 + Z.shiftl b2 8 + b3) :: words_of_bytes rest
  | _ => []
  end.

(** Message schedule, most recent word first: [ws] holds W(t-1), W(t-2), ... *)
Fixpoint schedule (n : nat) (ws : list Z) : list Z :=
  match n with
  | O => ws
  | S n' =>
      let w := add32 (add32 (ssig1 (nth 1 ws 0)) (nth 6 ws 0))
                     (add32 (ssig0 (nth 14 ws 0)) (nth 15 ws 0)) in
      schedule n' (w :: ws)
  end.

Record state := mkState { sa : Z; sb : Z; sc : Z; sd : Z; se : Z; sf : Z; sg : Z; sh : Z }.

Definition round (s : state) (kw : Z * Z) : state :=
  let '(k, w) := kw in
  let t1 := add32 (add32 (add32 (sh s) (bsig1 (se s))) (add32 (Ch (se s) (sf s) (sg s)) k)) w in
  let t2 := add32 (bsig0 (sa s)) (Maj (sa s) (sb s) (sc s)) in
  mkState (add32 t1 t2) (sa s) (sb s) (sc s) (add32 (sd s) t1) (se s) (sf s) (sg s).

Definition compress (h : state) (block : list Z) : state :=
  let w := rev (schedule 48 (rev block)) in
  let s := fold_left round (combine K256 w) h in
  mkState (add32 (sa h) (sa s)) (add32 (sb h) (sb s)) (add32 (sc h) (sc s))
          (add32 (sd h) (sd s)) (add32 (se h) (se s)) (add32 (sf h) (sf s))
          (add32 (sg h) (sg s)) (add32 (sh h) (sh s)).

Fixpoint blocks (fuel : nat) (ws : list Z) : list (list Z) :=
  match fuel, ws with
  | S fuel', _ :: _ => firstn 16 ws :: blocks fuel' (skipn 16 ws)
  | _, _ => []
  end.

Definition initial : state :=
  mkState (nth 0 H256 0) (nth 1 H256 0) (nth 2 H256 0) (nth 3 H256 0)
          (nth 4 H256 0) (nth 5 H256 0) (nth 6 H256 0) (nth 7 H256 0).

Definition digest (msg : Buffer) : Buffer :=
  let ws := words_of_bytes (pad msg) in
  let s := fold_left compress (blocks (length ws) ws) initial in
  flat_map (be_bytes 4) [sa s; sb s; sc s; sd s; se s; sf s; sg s; sh s].

End SHA256.

(** ** HMAC (RFC 2104) with SHA-256, block size 64 *)

Module HMAC.

Definition block_size : nat := 64.

Definition block_key (key : Buffer) : Buffer :=
  let k := if (block_size <? length key)%nat then SHA256.digest key else key in
  k ++ repeat 0 (block_size - length k).

Definition xor_pad (p : Z) (key : Buffer) : Buffer := map (Z.lxor p) key.

Definition sha256 (key msg : Buffer) : Buffer :=
  let k := block_key key in
  SHA256.digest (xor_pad 0x5c k ++ SHA256.digest (xor_pad 0x36 k ++ msg)).

End HMAC.

(** [digest('hex')]: two lower-case hexadecimal digits per byte. *)
Definition hex_digit (n : Z) : Z :=
  if n <? 10 then 48 + n else 87 + n.

Definition hex (bs : Buffer) : js_string :=
  flat_map (fun b => [hex_digit (Z.shiftr b 4); hex_digit (Z.land b 0xF)]) bs.

(** ** JavaScript values and exceptions *)

(** A number that came from a JSON literal: the double nearest to
    [(-1)^negative * mantissa * 10^exponent10], with [mantissa >= 0]. The
    handler never does arithmetic on numbers or compares two of them. *)
Record number := mkNumber { negative : bool; mantissa : Z; exponent10 : Z }.

(** The literal rounds to zero when it is at most half the least positive
    double, 2^-1074 (a tie rounds to the even neighbour, zero). *)
Definition number_is_zero (n : number) : bool :=
  (mantissa n =? 0)
  || ((exponent10 n <? 0) && (mantissa n * 2 ^ 1075 <=? 10 ^ (- exponent10 n))).

#[local] Set Warnings "-register-all".

Inductive value : Type :=
| VUndefined
| VNull
| VBool (b : bool)
| VNum (n : number)
| VStr (s : js_string)
| VArr (elems : list value)
| VObj (props : list (js_string * value)).

Inductive exn : Type :=
| SyntaxError    (* JSON.parse on text that is not JSON *)
| TypeError      (* property access on null or undefined; an object with no
                    primitive value; a fetch that fails (its promise rejects) *)
| RangeError.    (* timingSafeEqual on buffers of different lengths *)

Inductive outcome (A : Type) : Type :=
| Returned (a : A)
| Thrown (e : exn).
Arguments Returned {A} a.
Arguments Thrown {A} e.

Definition bindO {A B} (o : outcome A) (k : A -> outcome B) : outcome B :=
  match o with
  | Returned a => k a
  | Thrown e => Thrown e
  end.

(** Own properties of an object, in creation order, one entry per key. *)
Fixpoint get_own (k : js_string) (props : list (js_string * value)) : option value :=
  match props with
  | [] => None
  | (k', v) :: rest => if string_eqb k k' then Some v else get_own k rest
  end.

Fixpoint set_own (k : js_string) (v : value) (props : list (js_string * value))
  : list (js_string * value) :=
  match props with
  | [] => [(k, v)]
  | (k', v') :: rest =>
      if string_eqb k k' then (k, v) :: rest else (k', v') :: set_own k v rest
  end.

Definition nullish (v : value) : bool :=
  match v with
  | VUndefined | VNull => true
  | _ => false
  end.

(** [v.k], for the property names this program reads ([pageId], [properties],
    [verification_token], [Name], [title], [Slug], [Content], [rich_text],
    [plain_text], [items], [_id]): none of them is defined on a prototype, so
    on anything but an object with that own property the result is
    [undefined]; on [null] and [undefined] the access throws. *)
Definition member (v : value) (k : js_string) : outcome value :=
  match v with
  | VUndefined | VNull => Thrown TypeError
  | VObj props =>
      Returned (match get_own k props with Some x => x | None => VUndefined end)
  | _ => Returned VUndefined
  end.

(** [v[0]]: the first element of an array, the own property ["0"] of an
    object, the first code unit of a string. *)
Definition index0 (v : value) : outcome value :=
  match v with
  | VUndefined | VNull => Thrown TypeError
  | VArr elems => Returned (hd VUndefined elems)
  | VObj props =>
      Returned (match get_own (lit "0") props with Some x => x | None => VUndefined end)
  | VStr (c :: _) => Returned (VStr [c])
  | _ => Returned VUndefined
  end.

(** [v?.k]: [undefined] on [null] and [undefined], and [v.k] otherwise; it
    never throws. *)
Definition opt_member (v : value) (k : js_string) : value :=
  match v with
  | VObj props => match get_own k props with Some x => x | None => VUndefined end
  | _ => VUndefined
  end.

(** ToBoolean. *)
Definition truthy (v : value) : bool :=
  match v with
  | VUndefined | VNull => false
  | VBool b => b
  | VNum n => negb (number_is_zero n)
  | VStr [] => false
  | VStr (_ :: _) => true
  | VArr _ | VObj _ => true
  end.

(** [v === s] for a string [s]. *)
Definition strict_equal_string (v : value) (s : js_string) : bool :=
  match v with
  | VStr t => string_eqb t s
  | _ => false
  end.

(** ** JSON.parse *)

Module JSON.

Definition is_ws (c : Z) : bool := (c =? 32) || (c =? 9) || (c =? 10) || (c =? 13).

Fixpoint skip_ws (s : js_string) : js_string :=
  match s with
  | c :: rest => if is_ws c then skip_ws rest else s
  | [] => []
  end.

Definition is_digit (c : Z) : bool := (48 <=? c) && (c <=? 57).

(** Reads a run of digits onto the accumulator [m], counting them. *)
Fixpoint digits (s : js_string) (m : Z) (n : Z) : Z * Z * js_string :=
  match s with
  | c :: rest => if is_digit c then digits rest (10 * m + (c - 48)) (n + 1) else (m, n, s)
  | [] => (m, n, [])
  end.

Definition hex_value (c : Z) : option Z :=
  if is_digit c then Some (c - 48)
  else if (97 <=? c) && (c <=? 102) then Some (c - 87)
  else if (65 <=? c) && (c <=? 70) then Some (c - 55)
  else None.

Definition hex4 (a b c d : Z) : option Z :=
  match hex_value a, hex_value b, hex_value c, hex_value d with
  | Some x, Some y, Some z, Some w => Some (4096 * x + 256 * y + 16 * z + w)
  | _, _, _, _ => None
  end.

Definition escape (c : Z) : option Z :=
  if c =? 34 then Some 34          (* quotation mark *)
  else if c =? 92 then Some 92     (* reverse solidus *)
  else if c =? 47 then Some 47     (* solidus *)
  else if c =? 98 then Some 8      (* b *)
  else if c =? 102 then Some 12    (* f *)
  else if c =? 110 then Some 10    (* n *)
  else if c =? 114 then Some 13    (* r *)
  else if c =? 116 then Some 9     (* t *)
  else None.

(** The characters of a string after its opening quotation mark. *)
Fixpoint string_chars (s : js_string) : option (js_string * js_string) :=
  match s with
  | [] => None
  | c :: rest =>
      if c =? 34 then Some ([], rest)
      else if c =? 92 then
        match rest with
        | e :: rest' =>
            if e =? 117 then
              match rest' with
              | h1 :: h2 :: h3 :: h4 :: rest'' =>
                  match hex4 h1 h2 h3 h4, string_chars rest'' with
                  | Some u, Some (t, r) => Some (u :: t, r)
                  | _, _ => None
                  end
              | _ => None
              end
            else
              match escape e, string_chars rest' with
              | Some u, Some (t, r) => Some (u :: t, r)
              | _, _ => None
              end
        | [] => None
        end
      else if c <? 32 then None
      else
        match string_chars rest with
        | Some (t, r) => Some (c :: t, r)
        | None => None
        end
  end.

(** A number: an optional minus sign; a single 0 or a run of digits that
    does not start with 0; optionally a point and at least one digit;
    optionally e or E, an optional sign and at least one digit. *)
Definition minus_sign (s : js_string) : bool * js_string :=
  match s with
  | c :: rest => if c =? 45 then (true, rest) else (false, s)
  | [] => (false, s)
  end.

Definition int_part (s : js_string) : option (Z * js_string) :=
  match s with
  | c :: rest =>
      if c =? 48 then Some (0, rest)
      else if is_digit c then
        let '(m, _, r) := digits s 0 0 in Some (m, r)
      else None
  | [] => None
  end.

(** The mantissa with the digits of the fraction, and their number. *)
Definition frac_part (int : Z) (s : js_string) : option (Z * Z * js_string) :=
  match s with
  | c :: rest =>
      if c =? 46 then
        let '(m, n, r) := digits rest int 0 in
        if n =? 0 then None else Some (m, n, r)
      else Some (int, 0, s)
  | [] => Some (int, 0, s)
  end.

Definition exp_sign (s : js_string) : bool * js_string :=
  match s with
  | c :: rest =>
      if c =? 45 then (true, rest)
      else if c =? 43 then (false, rest)
      else (false, s)
  | [] => (false, s)
  end.

Definition exp_part (s : js_string) : option (Z * js_string) :=
  match s with
  | c :: rest =>
      if (c =? 101) || (c =? 69) then
        let '(neg, s1) := exp_sign rest in
        let '(x, n, r) := digits s1 0 0 in
        if n =? 0 then None else Some (if neg then - x else x, r)
      else Some (0, s)
  | [] => Some (0, s)
  end.

Definition number_literal (s : js_string) : option (number * js_string) :=
  let '(neg, s1) := minus_sign s in
  match int_part s1 with
  | None => None
  | Some (int, s2) =>
      match frac_part int s2 with
      | None => None
      | Some (m, nfrac, s3) =>
          match exp_part s3 with
          | None => None
          | Some (x, s4) => Some (mkNumber neg m (x - nfrac), s4)
          end
      end
  end.

Fixpoint starts_with (p s : js_string) : option js_string :=
  match p, s with
  | [], _ => Some s
  | a :: p', b :: s' => if a =? b then starts_with p' s' else None
  | _ :: _, [] => None
  end.

(** What a reader returns: the value read and the text that follows it. *)
Definition result : Type := option (value * js_string).

(** One JSON value at the head of [s]. The readers of the rest of an array
    and of an object, from the first element or key on, are parameters. *)
Definition value_with
    (elements : js_string -> list value -> result)
    (members : js_string -> list (js_string * value) -> result)
    (s : js_string) : result :=
  match s with
  | [] => None
  | c :: rest =>
      if c =? 123 then
        match skip_ws rest with
        | d :: rest' =>
            if d =? 125 then Some (VObj [], rest')
            else members (d :: rest') []
        | [] => None
        end
      else if c =? 91 then
        match skip_ws rest with
        | d :: rest' =>
            if d =? 93 then Some (VArr [], rest')
            else elements (d :: rest') []
        | [] => None
        end
      else if c =? 34 then
        match string_chars rest with
        | Some (t, r) => Some (VStr t, r)
        | None => None
        end
      else if c =? 116 then
        option_map (pair (VBool true)) (starts_with (lit "rue") rest)
      else if c =? 102 then
        option_map (pair (VBool false)) (starts_with (lit "alse") rest)
      else if c =? 110 then
        option_map (pair VNull) (starts_with (lit "ull") rest)
      else
        match number_literal s with
        | Some (n, r) => Some (VNum n, r)
        | None => None
        end
  end.

(** The elements of an array from the element at the head of [s] on, up to
    the closing bracket; [acc] holds the elements read so far, last first. *)
Definition elements_with
    (value_at : js_string -> result)
    (elements : js_string -> list value -> result)
    (s : js_string) (acc : list value) : result :=
  match value_at s with
  | None => None
  | Some (v, r) =>
      match skip_ws r with
      | c :: r' =>
          if c =? 44 then elements (skip_ws r') (v :: acc)
          else if c =? 93 then Some (VArr (rev (v :: acc)), r')
          else None
      | [] => None
      end
  end.

(** The members of an object from the key at the head of [s] on, up to the
    closing brace. A duplicate key keeps its place and takes the later
    value. *)
Definition members_with
    (value_at : js_string -> result)
    (members : js_string -> list (js_string * value) -> result)
    (s : js_string) (acc : list (js_string * value)) : result :=
  match s with
  | q :: s1 =>
      if q =? 34 then
        match string_chars s1 with
        | None => None
        | Some (k, s2) =>
            match skip_ws s2 with
            | c :: s3 =>
                if c =? 58 then
                  match value_at (skip_ws s3) with
                  | None => None
                  | Some (v, s4) =>
                      match skip_ws s4 with
                      | d :: s5 =>
                          if d =? 44 then members (skip_ws s5) (set_own k v acc)
                          else if d =? 125 then Some (VObj (set_own k v acc), s5)
                          else None
                      | [] => None
                      end
                  end
                else None
            | [] => None
            end
        end
      else None
  | [] => None
  end.

(** The three readers, tied by recursion on a bound of the nesting. *)
Fixpoint value_at (fuel : nat) (s : js_string) : result :=
  match fuel with
  | O => None
  | S fuel' => value_with (elements fuel') (members fuel') s
  end

with elements (fuel : nat) (s : js_string) (acc : list value) : result :=
  match fuel with
  | O => None
  | S fuel' => elements_with (value_at fuel') (elements fuel') s acc
  end

with members (fuel : nat) (s : js_string) (acc : list (js_string * value)) : result :=
  match fuel with
  | O => None
  | S fuel' => members_with (value_at fuel') (members fuel') s acc
  end.

(** [JSON.parse(text)]: one value between optional white space, or a
    [SyntaxError]. Two units of fuel per code unit are enough
    ([parse_fuel_enough] below). *)
Definition parse (text : js_string) : outcome value :=
  match value_at (2 * length text + 2) (skip_ws text) with
  | Some (v, r) =>
      match skip_ws r with
      | [] => Returned v
      | _ :: _ => Thrown SyntaxError
      end
  | None => Thrown SyntaxError
  end.

End JSON.

(** ** The handler's world: requests, responses and outgoing calls *)

(** What the handler reads of the incoming [Request]: the text of its body
    ([await req.text()]) and what [req.headers.get('x-notion-signature')]
    returns, [None] for [null]. *)
Record Request := mkRequest {
  req_text : js_string;
  req_signature : option js_string
}.

(** The request whose body arrived as [bytes], as the handler reads it. *)
Definition received (bytes : Buffer) (signature : option js_string) : Request :=
  mkRequest (Body_text bytes) signature.

(** [new Response(body, { status })]; the status is 200 when none is given. *)
Record Response := mkResponse {
  resp_status : Z;
  resp_body : js_string
}.

(** A call [fetch(url, { method, headers, body })]. *)
Record FetchRequest := mkFetch {
  fetch_url : js_string;
  fetch_method : js_string;
  fetch_headers : list (js_string * js_string);
  fetch_body : option js_string
}.

(** What the remote API answered: a status and the text of the body. *)
Record FetchResponse := mkFetchResponse {
  res_status : Z;
  res_text : js_string
}.

Inductive fetch_result : Type :=
| Resolved (res : FetchResponse)
| Rejected.

(** [type NotionData]. The handler fills it from the payload behind an
    unchecked cast, so at run time a field holds any value. *)
Record NotionData := mkNotionData {
  id : value;
  title : value;
  slug : value;
  content : value
}.

(** A computation that may throw and that issues [fetch] calls: the calls
    issued so far are threaded through, oldest first. *)
Definition M (A : Type) : Type :=
  list FetchRequest -> outcome A * list FetchRequest.

Definition ret {A} (a : A) : M A := fun calls => (Returned a, calls).

Definition bind {A B} (m : M A) (k : A -> M B) : M B :=
  fun calls =>
    match m calls with
    | (Returned a, calls') => k a calls'
    | (Thrown e, calls') => (Thrown e, calls')
    end.

Definition lift {A} (o : outcome A) : M A := fun calls => (o, calls).

Declare Scope relay_scope.
Delimit Scope relay_scope with relay.
Notation "x <- m ;; k" := (bind m (fun x => k))
  (at level 61, m at next level, right associativity) : relay_scope.
Notation "x <~ o ;; k" := (bindO o (fun x => k))
  (at level 61, o at next level, right associativity) : relay_scope.
Local Open Scope relay_scope.

(** The handler run on its own: no call has been issued before it. *)
Definition run {A} (m : M A) : outcome A * list FetchRequest := m [].

(** [crypto.timingSafeEqual(a, b)], as far as its result goes: it throws on
    buffers of different lengths, and otherwise tells whether the two hold
    the same bytes, the differences of all pairs folded into one
    accumulator that is tested at the end. The time it takes is a matter of
    the native code and has no place here. *)
Fixpoint fold_diff (a b : Buffer) (acc : Z) : Z :=
  match a, b with
  | x :: a', y :: b' => fold_diff a' b' (Z.lor acc (Z.lxor x y))
  | _, _ => acc
  end.

Definition timingSafeEqual (a b : Buffer) : outcome bool :=
  if (length a =? length b)%nat then Returned (fold_diff a b 0 =? 0)
  else Thrown RangeError.

(** [function calculateNotionSignature(rawBody, verificationToken)] *)
Definition calculateNotionSignature (rawBody verificationToken : js_string) : js_string :=
  lit "sha256=" ++ hex (HMAC.sha256 (Buffer_from verificationToken) (Buffer_from rawBody)).

Definition is_empty (s : js_string) : bool :=
  match s with
  | [] => true
  | _ :: _ => false
  end.

(** The body of [isValidSignature], over the comparison that the module
    imports from [crypto]: [compare] stands where the source calls
    [timingSafeEqual], to tell what the function does from what that
    primitive does. *)
Definition isValidSignature_with (compare : Buffer -> Buffer -> outcome bool)
    (rawBody : js_string) (headerSignature : option js_string)
    (verificationToken : js_string) : outcome bool :=
  match headerSignature with
  | None => Returned false
  | Some header =>
      if is_empty header || is_empty verificationToken then Returned false
      else
        let calc := calculateNotionSignature rawBody verificationToken in
        let a := Buffer_from calc in
        let b := Buffer_from header in
        if negb (length a =? length b)%nat then Returned false
        else compare a b
  end.

(** [function isValidSignature(rawBody, headerSignature, verificationToken)] *)
Definition isValidSignature : js_string -> option js_string -> js_string -> outcome bool :=
  isValidSignature_with timingSafeEqual.

(** [!headerSignature] *)
Definition no_signature (headerSignature : option js_string) : bool :=
  match headerSignature with
  | None => true
  | Some header => is_empty header
  end.

(** [res.json().catch(() => ({}))] *)
Definition json_or_empty (res : FetchResponse) : value :=
  match JSON.parse (res_text res) with
  | Returned v => v
  | Thrown _ => VObj []
  end.

(** The first rich-text run's [plain_text]: [run?.plain_text]. *)
Definition plain_text (run0 : value) : value :=
  opt_member run0 (lit "plain_text").

(** The object literal of [const notionData = { ... }], its four property
    values computed in order. *)
Definition notionData (body : value) : outcome NotionData :=
  (* id: body.pageId as string *)
  pageId <~ member body (lit "pageId") ;;
  (* title: body.properties?.Name.title[0]?.plain_text *)
  properties <~ member body (lit "properties") ;;
  run0 <~ (if nullish properties then Returned VUndefined
           else Name <~ member properties (lit "Name") ;;
                t <~ member Name (lit "title") ;;
                index0 t) ;;
  let title := plain_text run0 in
  (* slug: body.properties?.Slug?.rich_text[0]?.plain_text *)
  run0 <~ (if nullish properties then Returned VUndefined
           else Slug <~ member properties (lit "Slug") ;;
                if nullish Slug then Returned VUndefined
                else rich_text <~ member Slug (lit "rich_text") ;;
                     index0 rich_text) ;;
  let slug := plain_text run0 in
  (* content: body.properties?.Content?.rich_text[0]?.plain_text *)
  run0 <~ (if nullish properties then Returned VUndefined
           else Content <~ member properties (lit "Content") ;;
                if nullish Content then Returned VUndefined
                else rich_text <~ member Content (lit "rich_text") ;;
                     index0 rich_text) ;;
  let content := plain_text run0 in
  Returned (mkNotionData pageId title slug content).

(** ** Vocabulary of the statements *)

Definition is_byte (b : Z) : Prop := 0 <= b < 256.

Definition all_ascii (s : js_string) : Prop := Forall (fun c => is_ascii c = true) s.

(** [v[0]] where it does not throw. *)
Definition first_run (v : value) : value :=
  match index0 v with
  | Returned x => x
  | Thrown _ => VUndefined
  end.

(** The record the specification describes: [id] from [pageId], and
    [title], [slug] and [content] from the [plain_text] of the first run of
    the [Name], [Slug] and [Content] properties. *)
Definition derived_record (body : value) : NotionData :=
  let properties := opt_member body (lit "properties") in
  let first_text (property field : js_string) :=
    plain_text (first_run (opt_member (opt_member properties property) field)) in
  mkNotionData (opt_member body (lit "pageId"))
               (first_text (lit "Name") (lit "title"))
               (first_text (lit "Slug") (lit "rich_text"))
               (first_text (lit "Content") (lit "rich_text")).

(** The payloads from which the record can be read without a [TypeError]:
    the body is not [null]; and either it has no [properties], or these
    hold a [Name] with a [title], and each of [Slug] and [Content] is absent
    or has a [rich_text]. *)
Definition derivable (body : value) : bool :=
  let properties := opt_member body (lit "properties") in
  let has (property field : js_string) :=
    negb (nullish (opt_member (opt_member properties property) field)) in
  let absent (property : js_string) := nullish (opt_member properties property) in
  negb (nullish body)
  && (nullish properties
      || (has (lit "Name") (lit "title")
          && (absent (lit "Slug") || has (lit "Slug") (lit "rich_text"))
          && (absent (lit "Content") || has (lit "Content") (lit "rich_text")))).

(** The remote API [fetch] with the status of every answer replaced. *)
Definition with_status (st : FetchRequest -> Z) (fetch : FetchRequest -> fetch_result)
  : FetchRequest -> fetch_result :=
  fun call =>
    match fetch call with
    | Resolved res => Resolved (mkFetchResponse (st call) (res_text res))
    | Rejected => Rejected
    end.

(** ** A sample platform for the worked examples

    [JSON.stringify] on values whose strings are printable and whose object
    keys are not array indices, the text of the numbers that are integers
    below 2^53 in magnitude, and four remote APIs. The sample requests and
    answers hold no number. *)
Module Sample.

Fixpoint decimal (fuel : nat) (n : Z) (acc : js_string) : js_string :=
  match fuel with
  | O => acc
  | S fuel' =>
      let acc' := (48 + n mod 10) :: acc in
      if n <? 10 then acc' else decimal fuel' (n / 10) acc'
  end.

(** The magnitude of a literal that denotes an integer below 2^53. Such an
    integer is a double, and its text is its decimal digits. *)
Definition safe_integer (n : number) : option Z :=
  let m := mantissa n in
  let e := exponent10 n in
  if 0 <=? e then
    if m * 10 ^ e <? 2 ^ 53 then Some (m * 10 ^ e) else None
  else if (m mod 10 ^ (- e) =? 0) && (m / 10 ^ (- e) <? 2 ^ 53) then
    Some (m / 10 ^ (- e))
  else None.

(** The text of a number, for the integers below 2^53 in magnitude. Any
    other number is first rounded to a double and then printed with the
    fewest digits that tell it from its neighbours: that is not worked out
    here, and such a number gets no text. *)
Definition Number_toString (n : number) : js_string :=
  match safe_integer n with
  | Some x =>
      (if negative n && negb (x =? 0) then [45] else [])
        ++ decimal (Z.to_nat (Z.log2 x) + 1) x []
  | None => []
  end.

Definition quote_unit (c : Z) : js_string :=
  if (c =? 34) || (c =? 92) then [92; c]
  else if c <? 32 then lit "\u00" ++ [hex_digit (Z.shiftr c 4); hex_digit (Z.land c 0xF)]
  else [c].

Definition quote (s : js_string) : js_string :=
  [34] ++ flat_map quote_unit s ++ [34].

Fixpoint JSON_stringify (v : value) : js_string :=
  match v with
  | VUndefined | VNull => lit "null"
  | VBool true => lit "true"
  | VBool false => lit "false"
  | VNum n => Number_toString n
  | VStr s => quote s
  | VArr elems =>
      lit "["
        ++ (fix go (l : list value) : js_string :=
              match l with
              | [] => []
              | [x] => JSON_stringify x
              | x :: rest => JSON_stringify x ++ lit "," ++ go rest
              end) elems
        ++ lit "]"
  | VObj props =>
      lit "{"
        ++ (fix go (l : list (js_string * value)) (sep : js_string) : js_string :=
              match l with
              | [] => []
              | (_, VUndefined) :: rest => go rest sep
              | (k, x) :: rest =>
                  sep ++ quote k ++ lit ":" ++ JSON_stringify x ++ go rest (lit ",")
              end) props []
        ++ lit "}"
  end.

Definition is_get (call : FetchRequest) : bool :=
  string_eqb (fetch_method call) (lit "GET").

(** The collection holds an item [i1] under every slug; updates answer 200. *)
Definition remote_with_item (call : FetchRequest) : fetch_result :=
  if is_get call then Resolved (mkFetchResponse 200 (quoted "{'items':[{'_id':'i1'}]}"))
  else Resolved (mkFetchResponse 200 (quoted "{'id':'i1'}")).

(** The collection is empty; a create is refused with status 400. *)
Definition remote_empty (call : FetchRequest) : fetch_result :=
  if is_get call then Resolved (mkFetchResponse 200 (quoted "{'items':[]}"))
  else Resolved (mkFetchResponse 400 (quoted "{'code':'validation_error'}")).

(** The remote API cannot be reached. *)
Definition remote_down (call : FetchRequest) : fetch_result := Rejected.

(** The list answers, with an item that is [null]. *)
Definition remote_null_item (call : FetchRequest) : fetch_result :=
  Resolved (mkFetchResponse 200 (quoted "{'items':[null]}")).

Definition secret : js_string := lit "shh".

Definition event_text : js_string :=
  quoted "{'pageId':'p1','properties':{'Name':{'title':[{'plain_text':'Hello'}]},'Slug':{'rich_text':[{'plain_text':'hello'}]}}}".

Definition event_signature : js_string :=
  lit "sha256=a780c91130448281d57f2d242e8467014b8407024ad6598933e968b760c12401".

(** What [event_text] parses to. *)
Definition event_body : value :=
  VObj [(lit "pageId", VStr (lit "p1"));
        (lit "properties",
         VObj [(lit "Name",
                VObj [(lit "title", VArr [VObj [(lit "plain_text", VStr (lit "Hello"))]])]);
               (lit "Slug",
                VObj [(lit "rich_text", VArr [VObj [(lit "plain_text", VStr (lit "hello"))]])])])].

Definition event_record : NotionData :=
  mkNotionData (VStr (lit "p1")) (VStr (lit "Hello")) (VStr (lit "hello")) VUndefined.

Definition event : Request := mkRequest event_text (Some event_signature).

(** A signed event whose [properties] hold no [Name]. *)
Definition nameless_event : Request :=
  mkRequest (quoted "{'properties':{}}")
    (Some (lit "sha256=72a5c517b9c24d277f2754c96d096a30f62d2734484ebed902f007475629f588")).

(** A signed event that holds a [pageId] and nothing else. *)
Definition bare_event : Request :=
  mkRequest (quoted "{'pageId':'p1'}")
    (Some (lit "sha256=1e99305a55100d681d3c040589a64029dae448e815a6ba02b55f3afcfde8ae8a")).

(** The sample event as bytes, behind a byte order mark. *)
Definition marked_bytes : Buffer :=
  [0xEF; 0xBB; 0xBF] ++ Buffer_from event_text.

(** A body that holds a byte which is not UTF-8, inside a JSON string. *)
Definition ill_formed_bytes : Buffer :=
  Buffer_from (quoted "{'pageId':'") ++ [0xFF] ++ Buffer_from (quoted "'}").

(** A handshake request whose token is the empty string. *)
Definition empty_token_request : Request :=
  mkRequest (quoted "{'verification_token':''}") None.

End Sample.

(** Case analysis on the answer to the next call of the goal. *)
Ltac split_fetch :=
  match goal with
  | |- context [match ?f ?call with Resolved _ => _ | Rejected => _ end] =>
      destruct (f call)
  end.

Section Relay.

(** *** The platform and the configuration *)

(** [JSON.stringify], applied by the handler to object literals only, and
    the text of a number in a template literal: the handler passes their
    results on without looking at them. *)
Variable JSON_stringify : value -> js_string.
Variable Number_toString : number -> js_string.

(** The remote collection API as the handler meets it: the result of each
    call. The handler never issues the same call twice. *)
Variable fetch : FetchRequest -> fetch_result.

(** [process.env.NOTION_WEBHOOK_VERIFICATION_TOKEN || ''],
    [process.env.WEBFLOW_SITE_API_TOKEN] and [process.env.WEBFLOW_COLLECTION_ID],
    [None] for [undefined]. *)
Variable NOTION_WEBHOOK_VERIFICATION_TOKEN : js_string.
Variable WEBFLOW_API_TOKEN : option js_string.
Variable COLLECTION_ID : option js_string.

(** ToString, as a template literal applies it to [${v}]. An array joins its
    elements with commas, [null] and [undefined] elements as empty strings;
    an object is ["[object Object]"] unless an own property [toString] (never
    a function here) hides [Object.prototype.toString], and then it has no
    primitive value. *)
Fixpoint ToString (v : value) : outcome js_string :=
  match v with
  | VUndefined => Returned (lit "undefined")
  | VNull => Returned (lit "null")
  | VBool true => Returned (lit "true")
  | VBool false => Returned (lit "false")
  | VNum n => Returned (Number_toString n)
  | VStr s => Returned s
  | VArr elems =>
      (fix join (l : list value) : outcome js_string :=
         match l with
         | [] => Returned []
         | x :: rest =>
             sx <~ (if nullish x then Returned [] else ToString x) ;;
             match rest with
             | [] => Returned sx
             | _ :: _ => sr <~ join rest ;; Returned (sx ++ lit "," ++ sr)
             end
         end) elems
  | VObj props =>
      match get_own (lit "toString") props with
      | Some _ => Thrown TypeError
      | None => Returned (lit "[object Object]")
      end
  end.

Definition env_string (e : option js_string) : js_string :=
  match e with
  | Some s => s
  | None => lit "undefined"
  end.

(** The headers of every outgoing call. *)
Definition api_headers : list (js_string * js_string) :=
  [(lit "Authorization", lit "Bearer " ++ env_string WEBFLOW_API_TOKEN);
   (lit "Content-Type", lit "application/json")].

Definition items_url : js_string :=
  lit "https://api.webflow.com/v2/collections/" ++ env_string COLLECTION_ID ++ lit "/items".

(** The body of the update and of the create call. *)
Definition item_payload (title slug content : value) : value :=
  VObj [(lit "isArchived", VBool false);
        (lit "isDraft", VBool false);
        (lit "fieldData",
         VObj [(lit "name", title); (lit "slug", slug); (lit "content", content)])].

(** [await fetch(...)]: the call is issued; when no response is obtained the
    promise rejects with a [TypeError], which [await] throws. *)
Definition await_fetch (call : FetchRequest) : M FetchResponse :=
  fun calls =>
    match fetch call with
    | Resolved res => (Returned res, calls ++ [call])
    | Rejected => (Thrown TypeError, calls ++ [call])
    end.

(** [async function updateOrCreateWebflowItem(notionData)] *)
Definition updateOrCreateWebflowItem (data : NotionData) : M value :=
  let '(mkNotionData _ title slug content) := data in
  (* First: try to find an existing item by slug *)
  slug_text <- lift (ToString slug) ;;
  res <- await_fetch (mkFetch (items_url ++ lit "?slug=" ++ slug_text)
                              (lit "GET") api_headers None) ;;
  let existing := json_or_empty res in
  items <- lift (if truthy existing then member existing (lit "items")
                 else Returned VUndefined) ;;
  match items with
  | VArr (first :: _) =>
      (* Update item *)
      itemId <- lift (member first (lit "_id")) ;;
      id_text <- lift (ToString itemId) ;;
      res <- await_fetch (mkFetch (items_url ++ lit "/" ++ id_text)
                                  (lit "PATCH") api_headers
                                  (Some (JSON_stringify (item_payload title slug content)))) ;;
      ret (json_or_empty res)
  | _ =>
      (* Create new item *)
      res <- await_fetch (mkFetch items_url
                                  (lit "POST") api_headers
                                  (Some (JSON_stringify (item_payload title slug content)))) ;;
      ret (json_or_empty res)
  end.

(** [export async function POST(req)]. The calls of [console.log] are left
    out, and with them the test of [slug] and [title] that only guards one
    of them: the upsert is called whatever these hold. *)
Definition POST (req : Request) : M Response :=
  let rawBody := req_text req in
  body <- lift (JSON.parse rawBody) ;;
  let headerSignature := req_signature req in
  (* Handle initial subscription verification POST *)
  let verification_token := opt_member body (lit "verification_token") in
  if no_signature headerSignature && truthy verification_token then
    if negb (is_empty NOTION_WEBHOOK_VERIFICATION_TOKEN)
       && negb (strict_equal_string verification_token NOTION_WEBHOOK_VERIFICATION_TOKEN)
    then ret (mkResponse 401 (lit "Verification token mismatch"))
    else ret (mkResponse 200 (JSON_stringify (VObj [(lit "success", VBool true)])))
  else
    (* For subsequent calls, validate signature *)
    valid <- lift (isValidSignature rawBody headerSignature NOTION_WEBHOOK_VERIFICATION_TOKEN) ;;
    if negb valid then ret (mkResponse 401 (lit "Invalid signature"))
    else
      data <- lift (notionData body) ;;
      (* Forward to Webflow *)
      webflowResponse <- updateOrCreateWebflowItem data ;;
      ret (mkResponse 200
             (JSON_stringify (VObj [(lit "success", VBool true);
                                    (lit "webflowResponse", webflowResponse)]))).

(** The call that follows the lookup, run on its own: the two calls issued,
    and the decoded answer. *)
Definition send (lookup call : FetchRequest) : outcome value * list FetchRequest :=
  match fetch call with
  | Resolved res => (Returned (json_or_empty res), [lookup; call])
  | Rejected => (Thrown TypeError, [lookup; call])
  end.

(** * Properties *)

(** ** Strings, buffers and the comparison *)

Lemma string_eqb_eq (s t : js_string) : string_eqb s t = true <-> s = t.
Proof.
  revert t; induction s as [|c s IH]; intros [|d t]; simpl; split;
    try discriminate; try reflexivity.
  - rewrite andb_true_iff, Z.eqb_eq, IH. intros [-> ->]. reflexivity.
  - intros E. injection E as -> ->. rewrite Z.eqb_refl. simpl. now apply IH.
Qed.

Lemma string_eqb_refl (s : js_string) : string_eqb s s = true.
Proof. now apply string_eqb_eq. Qed.

Lemma fold_diff_zero (a b : Buffer) (acc : Z) :
  length a = length b ->
  (fold_diff a b acc = 0 <-> acc = 0 /\ a = b).
Proof.
  revert b acc; induction a as [|x a IH]; intros [|y b] acc E;
    simpl in *; try discriminate.
  - tauto.
  - rewrite IH by lia. rewrite Z.lor_eq_0_iff, Z.lxor_eq_0_iff. split.
    + intros [[-> ->] ->]. auto.
    + intros [-> E']. injection E' as -> ->. auto.
Qed.

(** On buffers of one length [timingSafeEqual] returns, and it decides
    equality. *)
Lemma timingSafeEqual_spec (a b : Buffer) :
  length a = length b ->
  exists r, timingSafeEqual a b = Returned r /\ (r = true <-> a = b).
Proof.
  intros E. unfold timingSafeEqual. rewrite E, Nat.eqb_refl.
  eexists; split; [reflexivity|].
  rewrite Z.eqb_eq, fold_diff_zero by exact E. tauto.
Qed.

Lemma timingSafeEqual_refl (a : Buffer) : timingSafeEqual a a = Returned true.
Proof.
  destruct (timingSafeEqual_spec a a eq_refl) as (r & -> & Hr).
  f_equal. now apply Hr.
Qed.

Lemma Buffer_from_cons_ascii (c : Z) (s : js_string) :
  is_ascii c = true -> Buffer_from (c :: s) = c :: Buffer_from s.
Proof. intros Hc. cbn [Buffer_from]. rewrite Hc. reflexivity. Qed.

Lemma Buffer_from_ascii (s : js_string) : all_ascii s -> Buffer_from s = s.
Proof.
  induction 1 as [|c s Hc _ IH]; [reflexivity|].
  rewrite Buffer_from_cons_ascii by exact Hc. now rewrite IH.
Qed.

Lemma lor_bit7_not_ascii (k x : Z) :
  Z.testbit k 7 = true -> is_ascii (Z.lor k x) = false.
Proof.
  intros Hk. unfold is_ascii.
  destruct (0 <=? Z.lor k x) eqn:Hlo; [|reflexivity].
  destruct (Z.lor k x <? 128) eqn:Hhi; [|reflexivity].
  apply Z.leb_le in Hlo. apply Z.ltb_lt in Hhi. exfalso.
  assert (Hb : Z.testbit (Z.lor k x) 7 = true) by (rewrite Z.lor_spec, Hk; reflexivity).
  destruct (Z.eq_dec (Z.lor k x) 0) as [E0|N0].
  - rewrite E0, Z.bits_0 in Hb. discriminate.
  - rewrite Z.bits_above_log2 in Hb; [discriminate|lia|].
    apply Z.log2_lt_pow2; lia.
Qed.

Lemma utf8_code_point_head (cp : Z) :
  exists b rest, utf8_code_point cp = b :: rest /\ is_ascii b = false.
Proof.
  unfold utf8_code_point.
  destruct (cp <? 0x800); [|destruct (cp <? 0x10000)];
    eexists; eexists; (split; [reflexivity|]);
    apply lor_bit7_not_ascii; reflexivity.
Qed.

(** The first byte of the encoding tells whether the first code unit is
    ASCII. *)
Lemma Buffer_from_head (c : Z) (s : js_string) :
  is_ascii c = false ->
  exists b rest, Buffer_from (c :: s) = b :: rest /\ is_ascii b = false.
Proof.
  intros Hc. cbn [Buffer_from]. rewrite Hc.
  assert (Hrep : forall t, exists b rest,
             utf8_replacement ++ t = b :: rest /\ is_ascii b = false)
    by (intros t; exists 0xEF, ([0xBF; 0xBD] ++ t); split; reflexivity).
  assert (Hcp : forall cp t, exists b rest,
             utf8_code_point cp ++ t = b :: rest /\ is_ascii b = false).
  { intros cp t. destruct (utf8_code_point_head cp) as (b & rest & -> & Hb).
    exists b, (rest ++ t). split; [reflexivity|exact Hb]. }
  generalize (Buffer_from s). intros enc.
  destruct (is_high_surrogate c).
  - destruct s as [|d s'].
    + exact (Hrep []).
    + generalize (Buffer_from s'). intros enc'.
      destruct (is_low_surrogate d); [apply Hcp|apply Hrep].
  - destruct (is_low_surrogate c); [apply Hrep|apply Hcp].
Qed.

(** A string whose encoding is all ASCII is that encoding. *)
Lemma Buffer_from_ascii_inv (s : js_string) :
  all_ascii (Buffer_from s) -> Buffer_from s = s.
Proof.
  induction s as [|c s IH]; intros H; [reflexivity|].
  destruct (is_ascii c) eqn:Hc.
  - rewrite Buffer_from_cons_ascii in * by exact Hc.
    inversion H; subst. now rewrite IH.
  - destruct (Buffer_from_head c s Hc) as (b & rest & E & Hb).
    rewrite E in H. inversion H; subst. congruence.
Qed.

(** ** Text and its UTF-8 encoding *)

Lemma lor_add (q y n : Z) :
  0 <= n -> 0 <= y < 2 ^ n -> Z.lor (q * 2 ^ n) y = q * 2 ^ n + y.
Proof.
  intros Hn Hy.
  assert (L : Z.land (q * 2 ^ n) y = 0).
  { apply Z.bits_inj'. intros i Hi. rewrite Z.land_spec, Z.bits_0.
    destruct (Z.lt_ge_cases i n) as [Hlt|Hge].
    - rewrite Z.mul_pow2_bits_low by lia. reflexivity.
    - rewrite <- (Z.mod_small y (2 ^ n)) by lia.
      rewrite Z.mod_pow2_bits_high by lia. apply andb_false_r. }
  rewrite <- Z.lxor_lor by exact L. symmetry. now apply Z.add_nocarry_lxor.
Qed.

Lemma land_low (x n : Z) : 0 <= n -> Z.land x (2 ^ n - 1) = x mod 2 ^ n.
Proof.
  intros Hn. rewrite <- Z.land_ones by exact Hn. f_equal.
  rewrite Z.ones_equiv. lia.
Qed.

Lemma utf8_more_add (cp b : Z) : utf8_more cp b = cp * 64 + b mod 64.
Proof.
  unfold utf8_more. rewrite Z.shiftl_mul_pow2 by lia.
  change 0x3F with (2 ^ 6 - 1). rewrite land_low by lia.
  change (2 ^ 6) with 64.
  apply (lor_add cp (b mod 64) 6); [lia|]. apply Z.mod_pos_bound. lia.
Qed.

Lemma in_range_true (lo hi b : Z) : lo <= b <= hi -> in_range lo hi b = true.
Proof. intros H. unfold in_range. apply andb_true_iff. split; apply Z.leb_le; lia. Qed.

Lemma in_range_false (lo hi b : Z) : b < lo \/ hi < b -> in_range lo hi b = false.
Proof.
  intros H. unfold in_range. apply andb_false_iff.
  destruct H; [left|right]; apply Z.leb_gt; lia.
Qed.

(** The bytes of a code point above U+007F, in arithmetic. *)
Lemma utf8_code_point_bytes (cp : Z) :
  0x80 <= cp < 0x110000 ->
  utf8_code_point cp
  = if cp <? 0x800 then [192 + cp / 64; 128 + cp mod 64]
    else if cp <? 0x10000 then
      [224 + cp / 4096; 128 + (cp / 64) mod 64; 128 + cp mod 64]
    else
      [240 + cp / 262144; 128 + (cp / 4096) mod 64; 128 + (cp / 64) mod 64;
       128 + cp mod 64].
Proof.
  intros Hcp. unfold utf8_code_point.
  rewrite !Z.shiftr_div_pow2 by lia.
  change 0x3F with (2 ^ 6 - 1). rewrite !land_low by lia.
  change (2 ^ 6) with 64. change (2 ^ 12) with 4096. change (2 ^ 18) with 262144.
  assert (T : forall x, 0 <= x < 64 -> Z.lor 0x80 x = 128 + x)
    by (intros x Hx; apply (lor_add 2 x 6); lia).
  assert (M : forall x, 0 <= x mod 64 < 64) by (intros x; apply Z.mod_pos_bound; lia).
  rewrite !T by apply M.
  destruct (Z.ltb_spec cp 0x800); [|destruct (Z.ltb_spec cp 0x10000)].
  - f_equal. apply (lor_add 6 (cp / 64) 5); [lia|].
    split; [apply Z.div_pos; lia|apply Z.div_lt_upper_bound; lia].
  - f_equal. apply (lor_add 14 (cp / 4096) 4); [lia|].
    split; [apply Z.div_pos; lia|apply Z.div_lt_upper_bound; lia].
  - f_equal. apply (lor_add 30 (cp / 262144) 3); [lia|].
    split; [apply Z.div_pos; lia|apply Z.div_lt_upper_bound; lia].
Qed.

(** Decoding the bytes of one code point gives its code units back. *)
Lemma utf8_decode_code_point (cp : Z) (rest : Buffer) :
  0x80 <= cp < 0x110000 -> ~ 0xD800 <= cp <= 0xDFFF ->
  utf8_decode (utf8_code_point cp ++ rest) = utf16_units cp ++ utf8_decode rest.
Proof.
  intros Hcp Hs. rewrite utf8_code_point_bytes by exact Hcp. unfold utf16_units.
  destruct (Z.ltb_spec cp 0x800) as [H1|H1]; [|destruct (Z.ltb_spec cp 0x10000) as [H2|H2]].
  - assert (E : (cp <? 0x10000) = true) by (apply Z.ltb_lt; lia). rewrite E.
    cbn [app utf8_decode].
    rewrite (in_range_false 0 127) by (Z.div_mod_to_equations; lia).
    rewrite (in_range_true 194 223) by (Z.div_mod_to_equations; lia).
    rewrite (in_range_true 128 191) by (Z.div_mod_to_equations; lia).
    f_equal. rewrite utf8_more_add.
    change 0x1F with (2 ^ 5 - 1). rewrite land_low by lia. change (2 ^ 5) with 32.
    Z.div_mod_to_equations. lia.
  - cbn [app utf8_decode].
    rewrite (in_range_false 0 127) by (Z.div_mod_to_equations; lia).
    rewrite (in_range_false 194 223) by (Z.div_mod_to_equations; lia).
    rewrite (in_range_true 224 239) by (Z.div_mod_to_equations; lia).
    rewrite (in_range_true _ _ (128 + (cp / 64) mod 64)).
    2:{ destruct (Z.eqb_spec (224 + cp / 4096) 224);
          destruct (Z.eqb_spec (224 + cp / 4096) 237);
          Z.div_mod_to_equations; lia. }
    rewrite (in_range_true 128 191) by (Z.div_mod_to_equations; lia).
    f_equal. rewrite !utf8_more_add.
    change 0xF with (2 ^ 4 - 1). rewrite land_low by lia. change (2 ^ 4) with 16.
    Z.div_mod_to_equations. lia.
  - assert (E : (cp <? 0x10000) = false) by (apply Z.ltb_ge; lia).
    cbn [app utf8_decode].
    rewrite (in_range_false 0 127) by (Z.div_mod_to_equations; lia).
    rewrite (in_range_false 194 223) by (Z.div_mod_to_equations; lia).
    rewrite (in_range_false 224 239) by (Z.div_mod_to_equations; lia).
    rewrite (in_range_true 240 244) by (Z.div_mod_to_equations; lia).
    rewrite (in_range_true _ _ (128 + (cp / 4096) mod 64)).
    2:{ destruct (Z.eqb_spec (240 + cp / 262144) 240);
          destruct (Z.eqb_spec (240 + cp / 262144) 244);
          Z.div_mod_to_equations; lia. }
    rewrite !(in_range_true 128 191) by (Z.div_mod_to_equations; lia).
    rewrite !utf8_more_add.
    change 0x7 with (2 ^ 3 - 1). rewrite land_low by lia. change (2 ^ 3) with 8.
    assert (Ecp : ((((240 + cp / 262144) mod 8 * 64 + (128 + (cp / 4096) mod 64) mod 64) * 64
                    + (128 + (cp / 64) mod 64) mod 64) * 64 + (128 + cp mod 64) mod 64) = cp)
      by (Z.div_mod_to_equations; lia).
    rewrite Ecp. unfold utf16_units. rewrite E. reflexivity.
Qed.

Lemma utf8_decode_ascii (c : Z) (rest : Buffer) :
  is_ascii c = true -> utf8_decode (c :: rest) = c :: utf8_decode rest.
Proof.
  unfold is_ascii. intros H. apply andb_true_iff in H. destruct H as [H0 H1].
  apply Z.leb_le in H0. apply Z.ltb_lt in H1.
  cbn [utf8_decode]. rewrite in_range_true by lia. reflexivity.
Qed.

(** The code point of a surrogate pair, and the pair of that code point. *)
Lemma surrogate_pair_units (c d : Z) :
  is_high_surrogate c = true -> is_low_surrogate d = true ->
  let cp := 0x10000 + Z.shiftl (c - 0xD800) 10 + (d - 0xDC00) in
  0x10000 <= cp < 0x110000 /\ utf16_units cp = [c; d].
Proof.
  unfold is_high_surrogate, is_low_surrogate. intros Hc Hd.
  apply andb_true_iff in Hc. destruct Hc as [Hc0 Hc1].
  apply andb_true_iff in Hd. destruct Hd as [Hd0 Hd1].
  apply Z.leb_le in Hc0, Hc1, Hd0, Hd1. cbv zeta.
  rewrite Z.shiftl_mul_pow2 by lia. change (2 ^ 10) with 1024.
  split; [lia|]. unfold utf16_units.
  assert (E : (0x10000 + (c - 0xD800) * 1024 + (d - 0xDC00) <? 0x10000) = false)
    by (apply Z.ltb_ge; lia).
  rewrite E. rewrite Z.shiftr_div_pow2 by lia.
  change 0x3FF with (2 ^ 10 - 1). rewrite land_low by lia. change (2 ^ 10) with 1024.
  f_equal; [|f_equal]; Z.div_mod_to_equations; lia.
Qed.

(** A well-formed text is what its UTF-8 encoding decodes to. *)
Lemma utf8_round_trip (s : js_string) :
  isWellFormed s = true -> utf8_decode (Buffer_from s) = s.
Proof.
  remember (length s) as n eqn:Hn. revert s Hn.
  induction n as [n IH] using lt_wf_ind. intros s Hn W.
  destruct s as [|c s]; [reflexivity|].
  cbn [isWellFormed] in W. cbn [Buffer_from].
  destruct (is_ascii c) eqn:Ha.
  { assert (Hh : is_high_surrogate c = false).
    { unfold is_ascii, is_high_surrogate in *. apply andb_true_iff in Ha.
      destruct Ha as [_ Ha]. apply Z.ltb_lt in Ha. apply andb_false_iff. left.
      apply Z.leb_gt. lia. }
    rewrite Hh in W. apply andb_true_iff in W. destruct W as [_ W].
    rewrite utf8_decode_ascii by exact Ha. f_equal.
    apply (IH (length s)); [subst n; simpl; lia|reflexivity|exact W]. }
  destruct (is_high_surrogate c) eqn:Hh.
  - destruct s as [|d s]; [discriminate|].
    apply andb_true_iff in W. destruct W as [Hd W]. rewrite Hd.
    destruct (surrogate_pair_units c d Hh Hd) as [Hcp Hu].
    rewrite utf8_decode_code_point; [|lia|lia].
    rewrite Hu. cbn [app]. do 2 f_equal.
    apply (IH (length s)); [subst n; simpl; lia|reflexivity|exact W].
  - apply andb_true_iff in W. destruct W as [W Ws].
    apply andb_true_iff in W. destruct W as [Hr Hl].
    apply negb_true_iff in Hl. rewrite Hl.
    unfold in_range in Hr. apply andb_true_iff in Hr. destruct Hr as [Hr0 Hr1].
    apply Z.leb_le in Hr0, Hr1.
    assert (Hc : 0x80 <= c).
    { unfold is_ascii in Ha. apply andb_false_iff in Ha.
      destruct Ha as [Ha|Ha]; [apply Z.leb_gt in Ha|apply Z.ltb_ge in Ha]; lia. }
    assert (Hs : ~ 0xD800 <= c <= 0xDFFF).
    { unfold is_high_surrogate, is_low_surrogate in *.
      apply andb_false_iff in Hh. apply andb_false_iff in Hl.
      rewrite !Z.leb_gt in Hh, Hl. lia. }
    rewrite utf8_decode_code_point; [|lia|exact Hs].
    unfold utf16_units.
    assert (E : (c <? 0x10000) = true) by (apply Z.ltb_lt; lia).
    rewrite E. cbn [app]. f_equal.
    apply (IH (length s)); [subst n; simpl; lia|reflexivity|exact Ws].
Qed.

(** The encoding of a text starts with a byte order mark only when the
    text does. *)
Lemma encoded_mark (s : js_string) (rest : Buffer) :
  isWellFormed s = true ->
  Buffer_from s = 0xEF :: 0xBB :: 0xBF :: rest -> hd_error s = Some 0xFEFF.
Proof.
  intros W E. pose proof (utf8_round_trip s W) as R. rewrite E in R.
  rewrite <- R. reflexivity.
Qed.

(** The bytes of a well-formed text with no byte order mark in front are
    read and encoded again without change. *)
Lemma Body_text_round_trip (s : js_string) :
  isWellFormed s = true -> hd_error s <> Some 0xFEFF ->
  Body_text (Buffer_from s) = s /\ Buffer_from (Body_text (Buffer_from s)) = Buffer_from s.
Proof.
  intros W N.
  assert (E : Body_text (Buffer_from s) = s).
  { unfold Body_text.
    destruct (Buffer_from s) as [|b0 [|b1 [|b2 rest]]] eqn:Eb;
      try (rewrite <- Eb; now apply utf8_round_trip).
    destruct ((b0 =? 0xEF) && (b1 =? 0xBB) && (b2 =? 0xBF)) eqn:Em.
    - apply andb_true_iff in Em. destruct Em as [Em E2].
      apply andb_true_iff in Em. destruct Em as [E0 E1].
      apply Z.eqb_eq in E0, E1, E2. subst b0 b1 b2.
      elim N. exact (encoded_mark s rest W Eb).
    - rewrite <- Eb. now apply utf8_round_trip. }
  split; [exact E|]. now rewrite E.
Qed.

(** ** The digest and its hexadecimal form *)

Lemma be_bytes_range (n : nat) (x : Z) : Forall is_byte (SHA256.be_bytes n x).
Proof.
  revert x; induction n as [|n IH]; intros x; simpl; [constructor|].
  apply Forall_app; split; [apply IH|].
  constructor; [|constructor].
  unfold is_byte. change 0xFF with (Z.ones 8). rewrite Z.land_ones by lia.
  apply Z.mod_pos_bound. lia.
Qed.

Lemma digest_range (msg : Buffer) : Forall is_byte (SHA256.digest msg).
Proof.
  unfold SHA256.digest. cbv zeta.
  apply Forall_flat_map, Forall_forall. intros x _. apply be_bytes_range.
Qed.

Lemma hmac_range (key msg : Buffer) : Forall is_byte (HMAC.sha256 key msg).
Proof. apply digest_range. Qed.

Lemma hex_digit_ascii (n : Z) : 0 <= n < 16 -> is_ascii (hex_digit n) = true.
Proof.
  intros Hn. unfold hex_digit, is_ascii.
  destruct (n <? 10); apply andb_true_iff; split;
    try apply Z.leb_le; try apply Z.ltb_lt; lia.
Qed.

Lemma hex_digit_inj (m n : Z) :
  0 <= m < 16 -> 0 <= n < 16 -> hex_digit m = hex_digit n -> m = n.
Proof.
  unfold hex_digit. intros Hm Hn.
  destruct (Z.ltb_spec m 10), (Z.ltb_spec n 10); lia.
Qed.

Lemma nibbles (b : Z) :
  is_byte b ->
  0 <= Z.shiftr b 4 < 16 /\ 0 <= Z.land b 0xF < 16
  /\ b = 16 * Z.shiftr b 4 + Z.land b 0xF.
Proof.
  unfold is_byte. intros Hb.
  rewrite Z.shiftr_div_pow2 by lia.
  change 0xF with (Z.ones 4). rewrite Z.land_ones by lia.
  change (2 ^ 4) with 16.
  pose proof (Z.mod_pos_bound b 16 ltac:(lia)).
  pose proof (Z.div_mod b 16 ltac:(lia)).
  assert (0 <= b / 16 < 16) by (split; [apply Z.div_pos | apply Z.div_lt_upper_bound]; lia).
  lia.
Qed.

Lemma hex_ascii (bs : Buffer) : Forall is_byte bs -> all_ascii (hex bs).
Proof.
  induction 1 as [|b bs Hb _ IH]; simpl; [constructor|].
  destruct (nibbles b Hb) as (H1 & H2 & _).
  constructor; [now apply hex_digit_ascii|].
  constructor; [now apply hex_digit_ascii|exact IH].
Qed.

Lemma hex_inj (bs bs' : Buffer) :
  Forall is_byte bs -> Forall is_byte bs' -> hex bs = hex bs' -> bs = bs'.
Proof.
  intros H; revert bs'; induction H as [|b bs Hb _ IH];
    intros bs' H'; destruct H' as [|b' bs' Hb' H']; simpl; intros E;
    try discriminate; [reflexivity|].
  injection E as E1 E2 E3.
  destruct (nibbles b Hb) as (A1 & A2 & A3).
  destruct (nibbles b' Hb') as (B1 & B2 & B3).
  apply hex_digit_inj in E1; [|assumption..].
  apply hex_digit_inj in E2; [|assumption..].
  f_equal; [lia|now apply IH].
Qed.

Lemma signature_ascii (rawBody token : js_string) :
  all_ascii (calculateNotionSignature rawBody token).
Proof.
  unfold calculateNotionSignature. apply Forall_app. split.
  - vm_compute. repeat constructor.
  - apply hex_ascii, hmac_range.
Qed.

Lemma signature_not_empty (rawBody token : js_string) :
  is_empty (calculateNotionSignature rawBody token) = false.
Proof. reflexivity. Qed.

(** ** [isValidSignature] *)

(** The comparison of [isValidSignature], for a computed signature [calc]
    that is ASCII: it does not throw, since [timingSafeEqual] is only
    reached with two buffers of one length, and it accepts [header] exactly
    when [header] is [calc]. *)
Lemma compare_spec (calc header : js_string) :
  all_ascii calc ->
  exists r,
    (if negb (length (Buffer_from calc) =? length (Buffer_from header))%nat
     then Returned false
     else timingSafeEqual (Buffer_from calc) (Buffer_from header)) = Returned r
    /\ (r = true <-> header = calc).
Proof.
  intros A. rewrite (Buffer_from_ascii calc A).
  destruct (length calc =? length (Buffer_from header))%nat eqn:L; cbn [negb].
  - apply Nat.eqb_eq in L.
    destruct (timingSafeEqual_spec calc (Buffer_from header) L) as (r & -> & Hr).
    exists r. split; [reflexivity|]. rewrite Hr. split.
    + intros E. rewrite <- (Buffer_from_ascii_inv header); [now symmetry|].
      now rewrite <- E.
    + intros ->. symmetry. now apply Buffer_from_ascii.
  - exists false. split; [reflexivity|]. split; [discriminate|].
    intros ->. apply Nat.eqb_neq in L. elim L.
    now rewrite Buffer_from_ascii.
Qed.

(** [isValidSignature] never throws, and it accepts exactly the header that
    is the computed signature, code unit for code unit, under a secret that
    is not empty. *)
Lemma isValidSignature_spec (rawBody : js_string) (headerSignature : option js_string)
    (token : js_string) :
  exists r,
    isValidSignature rawBody headerSignature token = Returned r
    /\ (r = true <->
        token <> [] /\ headerSignature = Some (calculateNotionSignature rawBody token)).
Proof.
  unfold isValidSignature, isValidSignature_with.
  pose proof (signature_ascii rawBody token) as A.
  pose proof (signature_not_empty rawBody token) as N.
  revert A N. generalize (calculateNotionSignature rawBody token). intros calc A N.
  destruct headerSignature as [header|].
  2:{ exists false. split; [reflexivity|]. split; [discriminate|]. intros [_ E]. discriminate. }
  destruct header as [|h0 header].
  { exists false. split; [reflexivity|]. split; [discriminate|].
    intros [_ E]. destruct calc; discriminate. }
  destruct token as [|t0 token].
  { exists false. split; [reflexivity|]. split; [discriminate|]. intros [E _]. now elim E. }
  cbn [is_empty orb]. cbv zeta.
  destruct (compare_spec calc (h0 :: header) A) as (r & -> & Hr).
  exists r. split; [reflexivity|]. rewrite Hr. split.
  - intros ->. split; [discriminate|reflexivity].
  - intros [_ E]. congruence.
Qed.

(** ** JSON.parse and its fuel *)

Lemma skip_ws_le (s : js_string) : (length (JSON.skip_ws s) <= length s)%nat.
Proof.
  induction s as [|c s IH]; simpl; [lia|].
  destruct (JSON.is_ws c); simpl; lia.
Qed.

Lemma string_chars_lt (n : nat) :
  forall s t r, (length s <= n)%nat ->
                JSON.string_chars s = Some (t, r) -> (length r < length s)%nat.
Proof.
  induction n as [|n IH]; intros [|c rest] t r Hn H; try discriminate;
    simpl in Hn; [lia|].
  simpl in H.
  destruct (c =? 34); [injection H as <- <-; simpl; lia|].
  destruct (c =? 92).
  - destruct rest as [|e rest']; [discriminate|]. simpl in Hn.
    destruct (e =? 117).
    + destruct rest' as [|h1 [|h2 [|h3 [|h4 rest'']]]]; try discriminate.
      destruct (JSON.hex4 h1 h2 h3 h4); [|discriminate].
      destruct (JSON.string_chars rest'') as [[t' r']|] eqn:E; [|discriminate].
      injection H as <- <-. apply IH in E; simpl in *; lia.
    + destruct (JSON.escape e); [|discriminate].
      destruct (JSON.string_chars rest') as [[t' r']|] eqn:E; [|discriminate].
      injection H as <- <-. apply IH in E; simpl in *; lia.
  - destruct (c <? 32); [discriminate|].
    destruct (JSON.string_chars rest) as [[t' r']|] eqn:E; [|discriminate].
    injection H as <- <-. apply IH in E; simpl in *; lia.
Qed.

Lemma digits_le (s : js_string) :
  forall m n m' n' r, JSON.digits s m n = (m', n', r) -> (length r <= length s)%nat.
Proof.
  induction s as [|c s IH]; intros m n m' n' r H; simpl in H.
  - injection H as <- <- <-. simpl. lia.
  - destruct (JSON.is_digit c).
    + apply IH in H. simpl. lia.
    + injection H as <- <- <-. simpl. lia.
Qed.

Lemma starts_with_le (p : js_string) :
  forall s r, JSON.starts_with p s = Some r -> (length r <= length s)%nat.
Proof.
  induction p as [|a p IH]; intros s r H; simpl in H.
  - injection H as <-. lia.
  - destruct s as [|b s]; [discriminate|]. destruct (a =? b); [|discriminate].
    apply IH in H. simpl. lia.
Qed.

Lemma number_literal_lt (s : js_string) (x : number) (r : js_string) :
  JSON.number_literal s = Some (x, r) -> (length r < length s)%nat.
Proof.
  unfold JSON.number_literal. intros H.
  destruct (JSON.minus_sign s) as [neg s1] eqn:E1.
  assert (L1 : (length s1 <= length s)%nat).
  { unfold JSON.minus_sign in E1. destruct s as [|c rest]; [injection E1 as <- <-; lia|].
    destruct (c =? 45); injection E1 as <- <-; simpl; lia. }
  destruct (JSON.int_part s1) as [[int s2]|] eqn:E2; [|discriminate].
  assert (L2 : (length s2 < length s1)%nat).
  { unfold JSON.int_part in E2. destruct s1 as [|c rest]; [discriminate|].
    destruct (c =? 48); [injection E2 as <- <-; simpl; lia|].
    destruct (JSON.is_digit c) eqn:Hc; [|discriminate].
    destruct (JSON.digits (c :: rest) 0 0) as [[m k] t] eqn:Ed.
    injection E2 as <- <-. simpl in Ed. rewrite Hc in Ed.
    apply digits_le in Ed. simpl. lia. }
  destruct (JSON.frac_part int s2) as [[[m nfrac] s3]|] eqn:E3; [|discriminate].
  assert (L3 : (length s3 <= length s2)%nat).
  { unfold JSON.frac_part in E3. destruct s2 as [|c rest]; [injection E3 as <- <- <-; lia|].
    destruct (c =? 46); [|injection E3 as <- <- <-; lia].
    destruct (JSON.digits rest int 0) as [[m' k] t] eqn:Ed.
    destruct (k =? 0); [discriminate|]. injection E3 as <- <- <-.
    apply digits_le in Ed. simpl. lia. }
  destruct (JSON.exp_part s3) as [[e s4]|] eqn:E4; [|discriminate].
  assert (L4 : (length s4 <= length s3)%nat).
  { unfold JSON.exp_part in E4. destruct s3 as [|c rest]; [injection E4 as <- <-; lia|].
    destruct ((c =? 101) || (c =? 69)); [|injection E4 as <- <-; lia].
    destruct (JSON.exp_sign rest) as [eneg t] eqn:Es.
    assert (length t <= length rest)%nat.
    { unfold JSON.exp_sign in Es. destruct rest as [|g rest']; [injection Es as <- <-; lia|].
      destruct (g =? 45); [injection Es as <- <-; simpl; lia|].
      destruct (g =? 43); injection Es as <- <-; simpl; lia. }
    destruct (JSON.digits t 0 0) as [[x' k] t'] eqn:Ed.
    destruct (k =? 0); [discriminate|]. injection E4 as <- <-.
    apply digits_le in Ed. simpl. lia. }
  injection H as <- <-. lia.
Qed.

(** A value read by [value_with] from readers [e1] and [m1] is read from
    any readers that return what these return on shorter texts; and what
    follows it is shorter than the text. *)
Lemma value_with_transfer e1 m1 e2 m2 (s : js_string) (v : value) (r : js_string) :
  JSON.value_with e1 m1 s = Some (v, r) ->
  (forall s' acc, (length s' < length s)%nat -> e1 s' acc = Some (v, r) ->
                  (length r < length s')%nat /\ e2 s' acc = Some (v, r)) ->
  (forall s' acc, (length s' < length s)%nat -> m1 s' acc = Some (v, r) ->
                  (length r < length s')%nat /\ m2 s' acc = Some (v, r)) ->
  (length r < length s)%nat /\ JSON.value_with e2 m2 s = Some (v, r).
Proof.
  unfold JSON.value_with. intros H He Hm.
  destruct s as [|c rest]; [discriminate|].
  pose proof (skip_ws_le rest) as W.
  destruct (c =? 123).
  { destruct (JSON.skip_ws rest) as [|d rest']; [discriminate|]. simpl in W.
    destruct (d =? 125).
    - injection H as <- <-. split; [simpl; lia|reflexivity].
    - apply Hm in H; [|simpl; lia]. destruct H as [L T]. split; [simpl in *; lia|exact T]. }
  destruct (c =? 91).
  { destruct (JSON.skip_ws rest) as [|d rest']; [discriminate|]. simpl in W.
    destruct (d =? 93).
    - injection H as <- <-. split; [simpl; lia|reflexivity].
    - apply He in H; [|simpl; lia]. destruct H as [L T]. split; [simpl in *; lia|exact T]. }
  destruct (c =? 34).
  { destruct (JSON.string_chars rest) as [[t r']|] eqn:E; [|discriminate].
    injection H as <- <-. apply (string_chars_lt (length rest)) in E; [|lia].
    split; [simpl; lia|reflexivity]. }
  assert (Hlit : forall p w,
             option_map (pair w) (JSON.starts_with p rest) = Some (v, r) ->
             (length r < length (c :: rest))%nat).
  { intros p w Hp. destruct (JSON.starts_with p rest) as [r'|] eqn:E; [|discriminate].
    injection Hp as <- <-. apply starts_with_le in E. simpl. lia. }
  destruct (c =? 116); [split; [now apply Hlit in H|exact H]|].
  destruct (c =? 102); [split; [now apply Hlit in H|exact H]|].
  destruct (c =? 110); [split; [now apply Hlit in H|exact H]|].
  split; [|exact H].
  destruct (JSON.number_literal (c :: rest)) as [[n r']|] eqn:E; [|discriminate].
  injection H as <- <-. now apply number_literal_lt in E.
Qed.

Lemma elements_with_transfer p1 e1 p2 e2 (s : js_string) (acc : list value)
    (v : value) (r : js_string) :
  JSON.elements_with p1 e1 s acc = Some (v, r) ->
  (forall v1 r1, p1 s = Some (v1, r1) ->
                 (length r1 < length s)%nat
                 /\ ((length r < length r1)%nat -> p2 s = Some (v1, r1))) ->
  (forall s' acc', (length s' + 2 <= length s)%nat -> e1 s' acc' = Some (v, r) ->
                   (length r < length s')%nat /\ e2 s' acc' = Some (v, r)) ->
  (length r < length s)%nat /\ JSON.elements_with p2 e2 s acc = Some (v, r).
Proof.
  unfold JSON.elements_with. intros H Hp He.
  destruct (p1 s) as [[v1 r1]|] eqn:P; [|discriminate].
  destruct (Hp v1 r1 eq_refl) as [L1 T1].
  pose proof (skip_ws_le r1) as W.
  destruct (JSON.skip_ws r1) as [|c r'] eqn:E; [discriminate|]. simpl in W.
  destruct (c =? 44) eqn:C1.
  - pose proof (skip_ws_le r') as W'.
    apply He in H; [|lia]. destruct H as [L T].
    split; [lia|]. rewrite T1 by lia. rewrite E, C1. exact T.
  - destruct (c =? 93) eqn:C2; [|discriminate]. injection H as <- <-.
    split; [lia|]. rewrite T1 by lia. rewrite E, C1, C2. reflexivity.
Qed.

Lemma members_with_transfer p1 m1 p2 m2 (s : js_string) (acc : list (js_string * value))
    (v : value) (r : js_string) :
  JSON.members_with p1 m1 s acc = Some (v, r) ->
  (forall s0 v1 r1, (length s0 + 3 <= length s)%nat -> p1 s0 = Some (v1, r1) ->
                    (length r1 < length s0)%nat
                    /\ ((length r < length r1)%nat -> p2 s0 = Some (v1, r1))) ->
  (forall s' acc', (length s' + 2 <= length s)%nat -> m1 s' acc' = Some (v, r) ->
                   (length r < length s')%nat /\ m2 s' acc' = Some (v, r)) ->
  (length r < length s)%nat /\ JSON.members_with p2 m2 s acc = Some (v, r).
Proof.
  unfold JSON.members_with. intros H Hp Hm.
  destruct s as [|q s1]; [discriminate|].
  destruct (q =? 34); [|discriminate].
  destruct (JSON.string_chars s1) as [[k s2]|] eqn:K; [|discriminate].
  apply (string_chars_lt (length s1)) in K; [|lia].
  pose proof (skip_ws_le s2) as W2.
  destruct (JSON.skip_ws s2) as [|c s3]; [discriminate|]. simpl in W2.
  destruct (c =? 58); [|discriminate].
  pose proof (skip_ws_le s3) as W3.
  destruct (p1 (JSON.skip_ws s3)) as [[v1 s4]|] eqn:P; [|discriminate].
  destruct (Hp (JSON.skip_ws s3) v1 s4 ltac:(simpl; lia) P) as [L1 T1].
  pose proof (skip_ws_le s4) as W4.
  destruct (JSON.skip_ws s4) as [|d s5] eqn:E; [discriminate|]. simpl in W4.
  destruct (d =? 44) eqn:C1.
  - pose proof (skip_ws_le s5) as W5.
    apply Hm in H; [|simpl; lia]. destruct H as [L T].
    split; [simpl; lia|]. rewrite T1 by lia. rewrite E, C1. exact T.
  - destruct (d =? 125) eqn:C2; [|discriminate]. injection H as <- <-.
    split; [simpl; lia|]. rewrite T1 by lia. rewrite E, C1, C2. reflexivity.
Qed.

(** What is read with some fuel is read with any fuel of at least twice the
    number of code units read. *)
Lemma fuel_transfer (f : nat) :
  (forall s v r, JSON.value_at f s = Some (v, r) ->
      (length r < length s)%nat
      /\ forall g, (2 * (length s - length r) <= g)%nat ->
                   JSON.value_at g s = Some (v, r))
  /\ (forall s acc v r, JSON.elements f s acc = Some (v, r) ->
        (length r < length s)%nat
        /\ forall g, (2 * (length s - length r) - 1 <= g)%nat ->
                     JSON.elements g s acc = Some (v, r))
  /\ (forall s acc v r, JSON.members f s acc = Some (v, r) ->
        (length r < length s)%nat
        /\ forall g, (2 * (length s - length r) - 1 <= g)%nat ->
                     JSON.members g s acc = Some (v, r)).
Proof.
  induction f as [|f (IHv & IHe & IHm)];
    [repeat split; intros; discriminate|].
  split; [|split].
  - intros s v r H.
    change (JSON.value_with (JSON.elements f) (JSON.members f) s = Some (v, r)) in H.
    assert (L : (length r < length s)%nat).
    { eapply (value_with_transfer _ _ (JSON.elements f) (JSON.members f)); [exact H| |].
      - intros s' acc _ E. split; [apply (IHe _ _ _ _ E)|exact E].
      - intros s' acc _ E. split; [apply (IHm _ _ _ _ E)|exact E]. }
    split; [exact L|]. intros [|g] Hg; [lia|].
    change (JSON.value_with (JSON.elements g) (JSON.members g) s = Some (v, r)).
    eapply value_with_transfer; [exact H| |].
    + intros s' acc Hs E. destruct (IHe _ _ _ _ E) as [L' T]. split; [exact L'|]. apply T. lia.
    + intros s' acc Hs E. destruct (IHm _ _ _ _ E) as [L' T]. split; [exact L'|]. apply T. lia.
  - intros s acc v r H.
    change (JSON.elements_with (JSON.value_at f) (JSON.elements f) s acc = Some (v, r)) in H.
    assert (L : (length r < length s)%nat).
    { eapply (elements_with_transfer _ _ (JSON.value_at f) (JSON.elements f)); [exact H| |].
      - intros v1 r1 E. split; [apply (IHv _ _ _ E)|intros _; exact E].
      - intros s' acc' _ E. split; [apply (IHe _ _ _ _ E)|exact E]. }
    split; [exact L|]. intros [|g] Hg; [lia|].
    change (JSON.elements_with (JSON.value_at g) (JSON.elements g) s acc = Some (v, r)).
    eapply elements_with_transfer; [exact H| |].
    + intros v1 r1 E. destruct (IHv _ _ _ E) as [L' T]. split; [exact L'|].
      intros Lr. apply T. lia.
    + intros s' acc' Hs E. destruct (IHe _ _ _ _ E) as [L' T]. split; [exact L'|].
      apply T. lia.
  - intros s acc v r H.
    change (JSON.members_with (JSON.value_at f) (JSON.members f) s acc = Some (v, r)) in H.
    assert (L : (length r < length s)%nat).
    { eapply (members_with_transfer _ _ (JSON.value_at f) (JSON.members f)); [exact H| |].
      - intros s0 v1 r1 _ E. split; [apply (IHv _ _ _ E)|intros _; exact E].
      - intros s' acc' _ E. split; [apply (IHm _ _ _ _ E)|exact E]. }
    split; [exact L|]. intros [|g] Hg; [lia|].
    change (JSON.members_with (JSON.value_at g) (JSON.members g) s acc = Some (v, r)).
    eapply members_with_transfer; [exact H| |].
    + intros s0 v1 r1 Hs E. destruct (IHv _ _ _ E) as [L' T]. split; [exact L'|].
      intros Lr. apply T. lia.
    + intros s' acc' Hs E. destruct (IHm _ _ _ _ E) as [L' T]. split; [exact L'|].
      apply T. lia.
Qed.

(** [JSON.parse] returns a value exactly when some fuel reads that value
    and nothing but white space follows it: the fuel it runs with is never
    what makes it throw. *)
Lemma parse_fuel_enough (text : js_string) (v : value) :
  JSON.parse text = Returned v
  <-> exists fuel r, JSON.value_at fuel (JSON.skip_ws text) = Some (v, r)
                     /\ JSON.skip_ws r = [].
Proof.
  unfold JSON.parse. split.
  - destruct (JSON.value_at _ _) as [[v' r]|] eqn:E; [|discriminate].
    destruct (JSON.skip_ws r) eqn:W; [|discriminate].
    intros H. injection H as <-. eauto.
  - intros (fuel & r & E & W).
    destruct (fuel_transfer fuel) as (Hv & _ & _).
    destruct (Hv _ _ _ E) as [L T].
    pose proof (skip_ws_le text).
    rewrite (T (2 * length text + 2)%nat) by lia. rewrite W. reflexivity.
Qed.

(** ** Property access and the derived record *)

Lemma member_opt (v : value) (k : js_string) :
  member v k = if nullish v then Thrown TypeError else Returned (opt_member v k).
Proof. destruct v; reflexivity. Qed.

Lemma index0_first (v : value) :
  index0 v = if nullish v then Thrown TypeError else Returned (first_run v).
Proof. destruct v as [| | | | [|c s] | |]; reflexivity. Qed.

Lemma opt_member_nullish (v : value) (k : js_string) :
  nullish v = true -> opt_member v k = VUndefined.
Proof. destruct v; try discriminate; reflexivity. Qed.

Lemma opt_member_object (v x : value) (k : js_string) :
  opt_member v k = x -> nullish x = false -> nullish v = false.
Proof. destruct v; intros <-; try discriminate; reflexivity. Qed.

(** The record is read from the payload as the specification says, and
    reading it throws exactly on the payloads that are not [derivable]. *)
Lemma notionData_spec (body : value) :
  notionData body
  = if derivable body then Returned (derived_record body) else Thrown TypeError.
Proof.
  unfold notionData, derivable, derived_record, bindO. cbv zeta.
  repeat first
    [ progress cbn [negb andb orb nullish]
    | match goal with
      | |- context [member ?v ?k] => rewrite (member_opt v k)
      | |- context [index0 ?v] => rewrite (index0_first v)
      | H : nullish ?v = true |- context [opt_member ?v ?k] =>
          rewrite (opt_member_nullish v k H)
      | H : nullish ?v = true, H' : context [opt_member ?v ?k] |- _ =>
          rewrite (opt_member_nullish v k H) in H'; discriminate
      | |- context [if nullish ?v then _ else _] => destruct (nullish v) eqn:?
      | |- context [nullish ?v] => destruct (nullish v) eqn:?
      end ];
    reflexivity.
Qed.

(** ** The handler *)

Lemma parse_throws_SyntaxError (text : js_string) (e : exn) :
  JSON.parse text = Thrown e -> e = SyntaxError.
Proof.
  unfold JSON.parse.
  destruct (JSON.value_at _ _) as [[v r]|]; [destruct (JSON.skip_ws r)|];
    congruence.
Qed.

(** Runs the handler up to the point where [JSON.parse] has returned. *)
Ltac enter_POST E :=
  unfold POST, run, bind, lift; cbv zeta; rewrite E; cbv beta iota.

(** A request whose signature is not accepted is answered 401. *)
Lemma POST_refused (req : Request) (body : value) :
  JSON.parse (req_text req) = Returned body ->
  no_signature (req_signature req)
    && truthy (opt_member body (lit "verification_token")) = false ->
  isValidSignature (req_text req) (req_signature req) NOTION_WEBHOOK_VERIFICATION_TOKEN
    = Returned false ->
  run (POST req) = (Returned (mkResponse 401 (lit "Invalid signature")), []).
Proof.
  intros E Hh Hv. enter_POST E. rewrite Hh, Hv. reflexivity.
Qed.

(** A request whose signature is accepted goes on to the record and the
    upsert. *)
Lemma POST_accepted (req : Request) (body : value) :
  JSON.parse (req_text req) = Returned body ->
  isValidSignature (req_text req) (req_signature req) NOTION_WEBHOOK_VERIFICATION_TOKEN
    = Returned true ->
  run (POST req)
  = run (data <- lift (notionData body) ;;
         webflowResponse <- updateOrCreateWebflowItem data ;;
         ret (mkResponse 200
                (JSON_stringify (VObj [(lit "success", VBool true);
                                       (lit "webflowResponse", webflowResponse)])))).
Proof.
  intros E Hv.
  assert (Hh : no_signature (req_signature req) = false).
  { destruct (isValidSignature_spec (req_text req) (req_signature req)
                NOTION_WEBHOOK_VERIFICATION_TOKEN) as (r & Er & Hr).
    rewrite Hv in Er. injection Er as <-. destruct Hr as [Hr _].
    destruct (Hr eq_refl) as [_ ->]. apply signature_not_empty. }
  enter_POST E. rewrite Hh, Hv. reflexivity.
Qed.

(** C2. On the event-delivery path (the body is JSON and the handshake
    condition does not hold), a missing header, an empty secret, a header
    whose byte length is not that of the expected signature, or a header
    some byte of which differs from it, is answered 401 with the body
    "Invalid signature", and no remote call is made. *)
Theorem invalid_signature_rejected (req : Request) (body : value) :
  JSON.parse (req_text req) = Returned body ->
  no_signature (req_signature req)
    && truthy (opt_member body (lit "verification_token")) = false ->
  let expected :=
    Buffer_from (calculateNotionSignature (req_text req) NOTION_WEBHOOK_VERIFICATION_TOKEN) in
  (req_signature req = None
   \/ NOTION_WEBHOOK_VERIFICATION_TOKEN = []
   \/ (exists header, req_signature req = Some header
                      /\ length (Buffer_from header) <> length expected)
   \/ (exists header, req_signature req = Some header
                      /\ Buffer_from header <> expected)) ->
  run (POST req) = (Returned (mkResponse 401 (lit "Invalid signature")), []).
Proof.
  intros E Hh expected Hbad. apply (POST_refused req body E Hh).
  destruct (isValidSignature_spec (req_text req) (req_signature req)
              NOTION_WEBHOOK_VERIFICATION_TOKEN) as (r & -> & Hr).
  destruct r; [|reflexivity]. exfalso.
  destruct Hr as [Hr _]. destruct (Hr eq_refl) as [Hs Hhd].
  destruct Hbad as [N | [N | [(h & Eh & N) | (h & Eh & N)]]].
  - congruence.
  - contradiction.
  - rewrite Eh in Hhd. injection Hhd as ->. now elim N.
  - rewrite Eh in Hhd. injection Hhd as ->. now elim N.
Qed.

(** C3, as amended. A request with no signature header whose body holds a
    truthy [verification_token] (a string that is not empty, for one) takes
    the handshake path: when a secret is configured and the token is not
    that very string, the answer is 401 "Verification token mismatch";
    otherwise it is 200 with the body [{ success: true }]. No remote call is
    made. *)
Theorem handshake_answer (req : Request) (body : value) :
  JSON.parse (req_text req) = Returned body ->
  req_signature req = None ->
  truthy (opt_member body (lit "verification_token")) = true ->
  let token := opt_member body (lit "verification_token") in
  (NOTION_WEBHOOK_VERIFICATION_TOKEN <> []
   /\ token <> VStr NOTION_WEBHOOK_VERIFICATION_TOKEN ->
   run (POST req)
   = (Returned (mkResponse 401 (lit "Verification token mismatch")), []))
  /\ (NOTION_WEBHOOK_VERIFICATION_TOKEN = []
      \/ token = VStr NOTION_WEBHOOK_VERIFICATION_TOKEN ->
      run (POST req)
      = (Returned (mkResponse 200 (JSON_stringify (VObj [(lit "success", VBool true)]))),
         [])).
Proof.
  intros E Hh Ht token. subst token. enter_POST E. unfold ret. rewrite Hh, Ht.
  cbn [no_signature andb].
  set (token := opt_member body (lit "verification_token")).
  split.
  - intros [Hs Hne].
    destruct NOTION_WEBHOOK_VERIFICATION_TOKEN as [|c secret] eqn:Es; [now elim Hs|].
    cbn [is_empty negb andb].
    destruct (strict_equal_string token (c :: secret)) eqn:Eq; [|reflexivity].
    exfalso. apply Hne. unfold strict_equal_string in Eq.
    destruct token; try discriminate. apply string_eqb_eq in Eq. now subst.
  - intros [Hs | Heq].
    + rewrite Hs. reflexivity.
    + rewrite Heq. cbn [strict_equal_string]. rewrite string_eqb_refl.
      cbn [negb]. rewrite andb_false_r. reflexivity.
Qed.

(** C9. A request whose body is not JSON makes the handler throw the
    [SyntaxError] of [JSON.parse]: no response is produced and no remote
    call is made, whatever the signature header and the secret are. *)
Theorem malformed_body_throws (req : Request) :
  (forall body, JSON.parse (req_text req) <> Returned body) ->
  run (POST req) = (Thrown SyntaxError, []).
Proof.
  intros H. unfold POST, run, bind, lift. cbv zeta.
  destruct (JSON.parse (req_text req)) as [body|e] eqn:E.
  - now elim (H body).
  - now rewrite (parse_throws_SyntaxError _ _ E).
Qed.

(** C10. With no signature header and a [verification_token] that is the
    empty string, the handshake path is not taken: the request goes to the
    signature check and is answered 401 "Invalid signature". *)
Theorem empty_token_is_no_handshake (req : Request) (props : list (js_string * value)) :
  req_signature req = None ->
  JSON.parse (req_text req) = Returned (VObj props) ->
  get_own (lit "verification_token") props = Some (VStr []) ->
  run (POST req) = (Returned (mkResponse 401 (lit "Invalid signature")), []).
Proof.
  intros Hh E Ht. apply (POST_refused req (VObj props) E).
  - cbn [opt_member]. rewrite Ht. cbn [truthy]. apply andb_false_r.
  - rewrite Hh. reflexivity.
Qed.

(** ** The upsert *)

(** [existing && Array.isArray(existing.items) && existing.items.length > 0]
    looks at [existing?.items]. *)
Lemma items_of_existing (existing : value) :
  (if truthy existing then member existing (lit "items") else Returned VUndefined)
  = Returned (opt_member existing (lit "items")).
Proof.
  destruct existing as [| | [|] | n | [|c s] | |]; try reflexivity.
  cbn [truthy member opt_member]. now destruct (negb (number_is_zero n)).
Qed.

(** The runs of the upsert, case by case. *)
Lemma upsert_run (data : NotionData) :
  run (updateOrCreateWebflowItem data)
  = match ToString (slug data) with
    | Thrown e => (Thrown e, [])
    | Returned slug_text =>
        let lookup :=
          mkFetch (items_url ++ lit "?slug=" ++ slug_text) (lit "GET") api_headers None in
        let payload :=
          Some (JSON_stringify (item_payload (title data) (slug data) (content data))) in
        match fetch lookup with
        | Rejected => (Thrown TypeError, [lookup])
        | Resolved res =>
            match opt_member (json_or_empty res) (lit "items") with
            | VArr (first :: _) =>
                match member first (lit "_id") with
                | Thrown e => (Thrown e, [lookup])
                | Returned itemId =>
                    match ToString itemId with
                    | Thrown e => (Thrown e, [lookup])
                    | Returned id_text =>
                        send lookup (mkFetch (items_url ++ lit "/" ++ id_text)
                                             (lit "PATCH") api_headers payload)
                    end
                end
            | _ => send lookup (mkFetch items_url (lit "POST") api_headers payload)
            end
        end
    end.
Proof.
  destruct data as [i t sl c]. cbn [slug title content].
  unfold updateOrCreateWebflowItem, run, bind, lift, await_fetch, ret, send.
  destruct (ToString sl) as [slug_text|e]; [|reflexivity]. cbv zeta.
  destruct (fetch _) as [res|]; [|reflexivity].
  rewrite items_of_existing. cbn [app].
  destruct (opt_member (json_or_empty res) (lit "items"))
    as [| | | | | [|first rest] |]; try (split_fetch; reflexivity).
  destruct (member first (lit "_id")) as [itemId|e]; [|reflexivity].
  destruct (ToString itemId) as [id_text|e]; [|reflexivity].
  split_fetch; reflexivity.
Qed.

(** What the upsert returns is the decoded body of the answer to its last
    call. *)
Lemma upsert_returns_last (data : NotionData) (w : value) (calls : list FetchRequest) :
  run (updateOrCreateWebflowItem data) = (Returned w, calls) ->
  exists earlier call res,
    calls = earlier ++ [call] /\ fetch call = Resolved res /\ w = json_or_empty res.
Proof.
  rewrite upsert_run. cbv zeta.
  assert (Hsend : forall lookup call,
             send lookup call = (Returned w, calls) ->
             exists earlier call res,
               calls = earlier ++ [call] /\ fetch call = Resolved res
               /\ w = json_or_empty res).
  { intros lookup call. unfold send. destruct (fetch call) as [res|] eqn:F; [|discriminate].
    intros H. injection H as <- <-. exists [lookup], call, res. auto. }
  destruct (ToString (slug data)) as [slug_text|e]; [|discriminate].
  destruct (fetch _) as [res|]; [|discriminate].
  destruct (opt_member (json_or_empty res) (lit "items"))
    as [| | | | | [|first rest] |]; try apply Hsend.
  destruct (member first (lit "_id")) as [itemId|e]; [|discriminate].
  destruct (ToString itemId) as [id_text|e]; [|discriminate].
  apply Hsend.
Qed.

(** C6. When the lookup by slug is answered, and the answer holds a list of
    items that is not empty, the relay issues the lookup and then exactly one
    more call: a PATCH to the identifier of the first item, with the body
    [{ isArchived: false, isDraft: false, fieldData: { name, slug, content } }];
    it issues no create. When the answer holds no list of items, or an empty
    one, the one call after the lookup is the create, a POST with the same
    body, and there is no PATCH. *)
Theorem upsert_updates_or_creates (data : NotionData) (slug_text : js_string)
    (res : FetchResponse) :
  ToString (slug data) = Returned slug_text ->
  let lookup :=
    mkFetch (items_url ++ lit "?slug=" ++ slug_text) (lit "GET") api_headers None in
  fetch lookup = Resolved res ->
  let items := opt_member (json_or_empty res) (lit "items") in
  let payload :=
    JSON_stringify
      (VObj [(lit "isArchived", VBool false);
             (lit "isDraft", VBool false);
             (lit "fieldData",
              VObj [(lit "name", title data); (lit "slug", slug data);
                    (lit "content", content data)])]) in
  (forall first rest itemId id_text,
      items = VArr (first :: rest) ->
      member first (lit "_id") = Returned itemId ->
      ToString itemId = Returned id_text ->
      snd (run (updateOrCreateWebflowItem data))
      = [lookup;
         mkFetch (items_url ++ lit "/" ++ id_text) (lit "PATCH") api_headers (Some payload)])
  /\ ((forall first rest, items <> VArr (first :: rest)) ->
      snd (run (updateOrCreateWebflowItem data))
      = [lookup; mkFetch items_url (lit "POST") api_headers (Some payload)]).
Proof.
  destruct data as [i t sl c]. cbn [slug title content].
  intros Hs Hf.
  unfold updateOrCreateWebflowItem, run, bind, lift, await_fetch, ret.
  rewrite Hs, Hf, items_of_existing. fold (item_payload t sl c). cbn [app].
  split.
  - intros first rest itemId id_text Hi Hid Hts. rewrite Hi, Hid, Hts.
    split_fetch; reflexivity.
  - intros Hno.
    destruct (opt_member (json_or_empty res) (lit "items"))
      as [| | | | | [|first rest] |]; try (split_fetch; reflexivity).
    now elim (Hno first rest).
Qed.

(** What the check does with a header, whatever the comparison imported
    from [crypto] computes: a header whose buffer has not the length of the
    computed signature's is refused, and the comparison is not consulted;
    otherwise the verdict is what the comparison returns on the two whole
    buffers. *)
Lemma isValidSignature_with_spec (compare : Buffer -> Buffer -> outcome bool)
    (rawBody header token : js_string) :
  header <> [] -> token <> [] ->
  isValidSignature_with compare rawBody (Some header) token
  = if (length (Buffer_from (calculateNotionSignature rawBody token))
        =? length (Buffer_from header))%nat
    then compare (Buffer_from (calculateNotionSignature rawBody token)) (Buffer_from header)
    else Returned false.
Proof.
  intros Hh Ht. unfold isValidSignature_with.
  destruct header; [now elim Hh|]. destruct token; [now elim Ht|].
  cbn [is_empty orb]. cbv zeta.
  destruct (length _ =? length _)%nat; reflexivity.
Qed.

(** C4, as amended. On the event-delivery path the handler refuses a
    request unless its header is ["sha256="] followed by the hexadecimal
    HMAC-SHA256, under the secret, of the UTF-8 bytes of the text that
    [req.text()] decodes from the bytes received: the parsed value has no
    part in it. Those bytes are the bytes received whenever these are the
    UTF-8 encoding of a well-formed text with no byte order mark in front.
    The header is compared by a check of the two lengths followed by the
    comparison imported from [crypto], [timingSafeEqual]: on a header of
    another length that comparison is not consulted, on a header of that
    length the verdict is what it returns on the two whole buffers, whatever
    it computes, and the handler makes no comparison of its own. With
    [timingSafeEqual] the check never throws. *)
Theorem signature_check_structure (bytes : Buffer) (headerSignature : option js_string)
    (body : value) :
  let req := received bytes headerSignature in
  let secret := NOTION_WEBHOOK_VERIFICATION_TOKEN in
  let signed := Buffer_from (Body_text bytes) in
  let expected := lit "sha256=" ++ hex (HMAC.sha256 (Buffer_from secret) signed) in
  JSON.parse (Body_text bytes) = Returned body ->
  no_signature headerSignature
    && truthy (opt_member body (lit "verification_token")) = false ->
  (run (POST req) = (Returned (mkResponse 401 (lit "Invalid signature")), [])
   <-> ~ (secret <> [] /\ headerSignature = Some expected))
  /\ (forall text,
        isWellFormed text = true -> hd_error text <> Some 0xFEFF ->
        bytes = Buffer_from text -> signed = bytes)
  /\ (forall (compare : Buffer -> Buffer -> outcome bool) (header : js_string),
        header <> [] -> secret <> [] ->
        let a := Buffer_from expected in
        let b := Buffer_from header in
        (length a <> length b ->
         isValidSignature_with compare (Body_text bytes) (Some header) secret
         = Returned false)
        /\ (length a = length b ->
            isValidSignature_with compare (Body_text bytes) (Some header) secret
            = compare a b))
  /\ (forall e,
        isValidSignature_with timingSafeEqual (Body_text bytes) headerSignature secret
        <> Thrown e).
Proof.
  intros req secret signed expected E Hh.
  assert (Ex : expected = calculateNotionSignature (Body_text bytes) secret)
    by reflexivity.
  clearbody expected. subst expected req signed.
  destruct (isValidSignature_spec (Body_text bytes) headerSignature secret)
    as (r & Er & Hr).
  split; [|split; [|split]].
  - destruct r.
    + split.
      * intros Hrun. exfalso. revert Hrun.
        rewrite (POST_accepted (received bytes headerSignature) body E Er).
        unfold run, bind, lift, ret.
        destruct (notionData body) as [data|e]; [|discriminate].
        destruct (updateOrCreateWebflowItem data []) as [[w|e] calls]; discriminate.
      * intros N. elim N. now apply Hr.
    + split.
      * intros _ H. apply Hr in H. discriminate H.
      * intros _. exact (POST_refused (received bytes headerSignature) body E Hh Er).
  - intros text W N ->. now apply Body_text_round_trip.
  - intros compare header Hne Hs a b.
    rewrite (isValidSignature_with_spec compare (Body_text bytes) header secret Hne Hs).
    fold a b. clearbody a b. split; intros Hl.
    + apply Nat.eqb_neq in Hl. now rewrite Hl.
    + apply Nat.eqb_eq in Hl. now rewrite Hl.
  - intros e. fold isValidSignature. rewrite Er. discriminate.
Qed.

(** C8, as amended. For a verified event whose payload is [derivable] (it
    is not [null]; it has no [properties], or these hold a [Name] with a
    [title], and each of [Slug] and [Content] is absent or has a
    [rich_text]), reading the record does not fail: a field whose first run
    or whose [plain_text] is missing is [undefined], and the handler goes on
    to the upsert with that record. On any other payload reading the record
    throws a [TypeError], and no remote call is made. *)
Theorem absent_fields_and_derivation (req : Request) (body : value) :
  JSON.parse (req_text req) = Returned body ->
  isValidSignature (req_text req) (req_signature req) NOTION_WEBHOOK_VERIFICATION_TOKEN
    = Returned true ->
  (derivable body = true ->
   notionData body = Returned (derived_record body)
   /\ run (POST req)
      = run (webflowResponse <- updateOrCreateWebflowItem (derived_record body) ;;
             ret (mkResponse 200
                    (JSON_stringify (VObj [(lit "success", VBool true);
                                           (lit "webflowResponse", webflowResponse)])))))
  /\ (derivable body = false ->
      notionData body = Thrown TypeError
      /\ run (POST req) = (Thrown TypeError, [])).
Proof.
  intros E Hv. rewrite (POST_accepted req body E Hv), notionData_spec.
  split; intros ->; (split; [reflexivity|]); reflexivity.
Qed.

End Relay.

(** ** The remote statuses and the answer to a verified event *)

Section Statuses.

Variable JSON_stringify : value -> js_string.
Variable Number_toString : number -> js_string.
Variable fetch : FetchRequest -> fetch_result.
Variable secret : js_string.
Variable api_token collection : option js_string.

Local Abbreviation relay :=
  (POST JSON_stringify Number_toString fetch secret api_token collection).
Local Abbreviation upsert :=
  (updateOrCreateWebflowItem JSON_stringify Number_toString fetch api_token collection).

Lemma json_or_empty_status (st : Z) (res : FetchResponse) :
  json_or_empty (mkFetchResponse st (res_text res)) = json_or_empty res.
Proof. reflexivity. Qed.

(** Neither the calls issued nor the value returned by the upsert depend on
    the statuses of the answers. *)
Lemma upsert_ignores_status (st : FetchRequest -> Z) (data : NotionData) :
  run (updateOrCreateWebflowItem JSON_stringify Number_toString (with_status st fetch)
         api_token collection data)
  = run (upsert data).
Proof.
  rewrite !upsert_run. cbv zeta. unfold send, with_status.
  destruct (ToString Number_toString (slug data)) as [slug_text|e]; [|reflexivity].
  destruct (fetch _) as [res|]; [|reflexivity].
  rewrite json_or_empty_status.
  destruct (opt_member (json_or_empty res) (lit "items"))
    as [| | | | | [|first rest] |]; try (split_fetch; reflexivity).
  destruct (member first (lit "_id")) as [itemId|e]; [|reflexivity].
  destruct (ToString Number_toString itemId) as [id_text|e]; [|reflexivity].
  split_fetch; reflexivity.
Qed.

Lemma POST_ignores_status (st : FetchRequest -> Z) (req : Request) :
  run (POST JSON_stringify Number_toString (with_status st fetch) secret
         api_token collection req)
  = run (relay req).
Proof.
  pose proof (upsert_ignores_status st) as U. unfold run in U.
  unfold POST, run, bind, lift. cbv zeta.
  destruct (JSON.parse (req_text req)) as [body|e]; [|reflexivity].
  destruct (no_signature (req_signature req) && truthy _); [reflexivity|].
  destruct (isValidSignature _ _ _) as [[|]|e]; try reflexivity.
  cbn [negb]. destruct (notionData body) as [data|e]; [|reflexivity].
  rewrite U. reflexivity.
Qed.

(** C7, as amended. The answer of the handler, and the calls it issues, do
    not depend on the HTTP statuses of the remote answers. For a verified
    event whose record is read without a throw and whose upsert returns
    (each of its calls was answered), the handler answers 200 with the body
    [{ success: true, webflowResponse }], where [webflowResponse] is the
    body of the last remote answer decoded as JSON, and [{}] when it does
    not decode. *)
Theorem verified_event_answer (req : Request) :
  (forall st,
      run (POST JSON_stringify Number_toString (with_status st fetch) secret
             api_token collection req)
      = run (relay req))
  /\ (forall body data w calls,
        JSON.parse (req_text req) = Returned body ->
        isValidSignature (req_text req) (req_signature req) secret = Returned true ->
        notionData body = Returned data ->
        run (upsert data) = (Returned w, calls) ->
        run (relay req)
        = (Returned (mkResponse 200
                       (JSON_stringify (VObj [(lit "success", VBool true);
                                              (lit "webflowResponse", w)]))),
           calls)
        /\ exists earlier call res,
             calls = earlier ++ [call] /\ fetch call = Resolved res
             /\ w = match JSON.parse (res_text res) with
                    | Returned v => v
                    | Thrown _ => VObj []
                    end).
Proof.
  split; [intros st; apply POST_ignores_status|].
  intros body data w calls E Hv Hd Hu. split.
  - rewrite (POST_accepted _ _ _ _ _ _ req body E Hv).
    unfold run in Hu. unfold run, bind, lift, ret. rewrite Hd, Hu. reflexivity.
  - exact (upsert_returns_last _ _ _ _ _ data w calls Hu).
Qed.

End Statuses.

(** ** The end-to-end example *)

(** C5. The sample body, signed under the secret ["shh"], is accepted; the
    record read from it is [{ id: "p1", title: "Hello", slug: "hello",
    content: undefined }]; the handler goes on to the upsert with that
    record, the lookup asks for the slug ["hello"], and the call after it
    carries the [fieldData] [{ name: "Hello", slug: "hello", content:
    undefined }]. In general a record that is read is [derived_record]: [id]
    is [pageId], and [title], [slug] and [content] are the [plain_text] of
    the first run of [Name.title], [Slug.rich_text] and [Content.rich_text]. *)
Theorem end_to_end_example
    (JSON_stringify : value -> js_string) (Number_toString : number -> js_string)
    (fetch : FetchRequest -> fetch_result) (api_token collection : option js_string) :
  let relay := POST JSON_stringify Number_toString fetch Sample.secret api_token collection in
  let upsert :=
    updateOrCreateWebflowItem JSON_stringify Number_toString fetch api_token collection in
  let payload :=
    JSON_stringify
      (VObj [(lit "isArchived", VBool false);
             (lit "isDraft", VBool false);
             (lit "fieldData",
              VObj [(lit "name", VStr (lit "Hello")); (lit "slug", VStr (lit "hello"));
                    (lit "content", VUndefined)])]) in
  let lookup :=
    mkFetch (items_url collection ++ lit "?slug=hello") (lit "GET")
            (api_headers api_token) None in
  Sample.event_signature = calculateNotionSignature Sample.event_text Sample.secret
  /\ JSON.parse Sample.event_text = Returned Sample.event_body
  /\ notionData Sample.event_body
     = Returned (mkNotionData (VStr (lit "p1")) (VStr (lit "Hello")) (VStr (lit "hello"))
                              VUndefined)
  /\ run (relay Sample.event)
     = run (webflowResponse <- upsert Sample.event_record ;;
            ret (mkResponse 200
                   (JSON_stringify (VObj [(lit "success", VBool true);
                                          (lit "webflowResponse", webflowResponse)]))))
  /\ (exists after, snd (run (relay Sample.event)) = lookup :: after
                    /\ forall call, In call after -> fetch_body call = Some payload)
  /\ (forall res, fetch lookup = Resolved res ->
                  opt_member (json_or_empty res) (lit "items") = VArr [] ->
                  snd (run (relay Sample.event))
                  = [lookup;
                     mkFetch (items_url collection) (lit "POST") (api_headers api_token)
                             (Some payload)])
  /\ (forall body data, notionData body = Returned data -> data = derived_record body).
Proof.
  intros relay upsert payload lookup.
  assert (Hsig : Sample.event_signature
                 = calculateNotionSignature Sample.event_text Sample.secret)
    by (vm_compute; reflexivity).
  assert (E : JSON.parse (req_text Sample.event) = Returned Sample.event_body)
    by (vm_compute; reflexivity).
  assert (Hd : notionData Sample.event_body = Returned Sample.event_record)
    by (vm_compute; reflexivity).
  assert (Hv : isValidSignature (req_text Sample.event) (req_signature Sample.event)
                 Sample.secret = Returned true)
    by (vm_compute; reflexivity).
  assert (Hrun : run (relay Sample.event)
                 = run (webflowResponse <- upsert Sample.event_record ;;
                        ret (mkResponse 200
                               (JSON_stringify
                                  (VObj [(lit "success", VBool true);
                                         (lit "webflowResponse", webflowResponse)]))))).
  { unfold relay. rewrite (POST_accepted _ _ _ _ _ _ Sample.event _ E Hv).
    unfold run, bind, lift. rewrite Hd. reflexivity. }
  assert (Hcalls : snd (run (relay Sample.event)) = snd (run (upsert Sample.event_record))).
  { rewrite Hrun. unfold run, bind, ret.
    destruct (upsert Sample.event_record []) as [[w|e] calls]; reflexivity. }
  assert (Hup := upsert_run JSON_stringify Number_toString fetch api_token collection
                   Sample.event_record).
  fold upsert in Hup. cbv zeta in Hup.
  change (ToString Number_toString (slug Sample.event_record))
    with (Returned (A := js_string) (lit "hello")) in Hup.
  cbv beta iota in Hup.
  change (items_url collection ++ lit "?slug=" ++ lit "hello")
    with (items_url collection ++ lit "?slug=hello") in Hup.
  fold lookup in Hup.
  change (JSON_stringify
            (item_payload (title Sample.event_record) (slug Sample.event_record)
               (content Sample.event_record)))
    with payload in Hup.
  split; [exact Hsig|]. split; [exact E|]. split; [exact Hd|]. split; [exact Hrun|].
  split; [|split].
  - rewrite Hcalls, Hup. clear Hup. unfold send.
    destruct (fetch lookup) as [res|]; [|exists []; split; [reflexivity|intros ? []]].
    destruct (opt_member (json_or_empty res) (lit "items"))
      as [| | | | | [|first rest] |];
      try (split_fetch; eexists; (split; [reflexivity|]);
           intros call [<-|[]]; reflexivity).
    destruct (member first (lit "_id")) as [itemId|e];
      [|exists []; split; [reflexivity|intros ? []]].
    destruct (ToString Number_toString itemId) as [id_text|e];
      [|exists []; split; [reflexivity|intros ? []]].
    split_fetch; eexists; (split; [reflexivity|]);
      intros call [<-|[]]; reflexivity.
  - intros res Hf Hi. rewrite Hcalls, Hup, Hf, Hi. clear Hup. unfold send.
    split_fetch; reflexivity.
  - intros body data H. rewrite notionData_spec in H.
    destruct (derivable body); congruence.
Qed.


(** * Worked instances *)

Abbreviation sample_POST fetch secret :=
  (POST Sample.JSON_stringify Sample.Number_toString fetch secret
        (Some (lit "token")) (Some (lit "c1"))).

Abbreviation sample_upsert fetch :=
  (updateOrCreateWebflowItem Sample.JSON_stringify Sample.Number_toString fetch
        (Some (lit "token")) (Some (lit "c1"))).

Abbreviation sample_headers :=
  [(lit "Authorization", lit "Bearer token"); (lit "Content-Type", lit "application/json")].

(** ** C2 *)

Lemma invalid_signature_rejected_witness :
  run (sample_POST Sample.remote_with_item Sample.secret
         (mkRequest Sample.event_text (Some (lit "sha256=00"))))
  = (Returned (mkResponse 401 (lit "Invalid signature")), []).
Proof.
  apply (invalid_signature_rejected _ _ _ _ _ _
           (mkRequest Sample.event_text (Some (lit "sha256=00"))) Sample.event_body).
  - vm_compute. reflexivity.
  - vm_compute. reflexivity.
  - right. right. left. exists (lit "sha256=00"). split; [reflexivity|].
    vm_compute. discriminate.
Defined.

(** ** C3 *)

(** C3 as stated fails: the body holds a [verification_token], the empty
    string, and there is no signature header; with a secret configured the
    answer is not "Verification token mismatch", and with no secret
    configured it is not a success. *)
Lemma empty_token_answer :
  req_signature Sample.empty_token_request = None
  /\ JSON.parse (req_text Sample.empty_token_request)
     = Returned (VObj [(lit "verification_token", VStr [])])
  /\ Sample.secret <> [] /\ VStr [] <> VStr Sample.secret
  /\ run (sample_POST Sample.remote_empty Sample.secret Sample.empty_token_request)
     = (Returned (mkResponse 401 (lit "Invalid signature")), [])
  /\ run (sample_POST Sample.remote_empty [] Sample.empty_token_request)
     = (Returned (mkResponse 401 (lit "Invalid signature")), [])
  /\ lit "Invalid signature" <> lit "Verification token mismatch".
Proof.
  split; [reflexivity|]. split; [vm_compute; reflexivity|].
  split; [discriminate|]. split; [vm_compute; discriminate|].
  split; [vm_compute; reflexivity|]. split; [vm_compute; reflexivity|].
  vm_compute. discriminate.
Qed.

Lemma handshake_answer_witness :
  run (sample_POST Sample.remote_empty Sample.secret
         (mkRequest (quoted "{'verification_token':'shh'}") None))
  = (Returned (mkResponse 200 (quoted "{'success':true}")), [])
  /\ run (sample_POST Sample.remote_empty Sample.secret
            (mkRequest (quoted "{'verification_token':'other'}") None))
     = (Returned (mkResponse 401 (lit "Verification token mismatch")), []).
Proof.
  split.
  - refine (proj2 (handshake_answer _ _ _ _ _ _
                     (mkRequest (quoted "{'verification_token':'shh'}") None)
                     (VObj [(lit "verification_token", VStr (lit "shh"))]) _ _ _) _).
    + vm_compute. reflexivity.
    + reflexivity.
    + reflexivity.
    + right. reflexivity.
  - refine (proj1 (handshake_answer _ _ _ _ _ _
                     (mkRequest (quoted "{'verification_token':'other'}") None)
                     (VObj [(lit "verification_token", VStr (lit "other"))]) _ _ _) _).
    + vm_compute. reflexivity.
    + reflexivity.
    + reflexivity.
    + split; vm_compute; discriminate.
Defined.

(** ** C4 *)

(** C4 as stated fails. Each of the two bodies below is received with the
    header that the claim describes, ["sha256="] and the hexadecimal HMAC of
    the exact bytes received, and is refused: the first starts with a byte
    order mark, which [req.text()] drops, the second holds a byte that is
    not UTF-8, which is read as U+FFFD. The header computed over the bytes
    of the text is accepted in both cases. *)
Lemma signature_of_received_bytes_refused :
  let of_bytes bytes :=
    lit "sha256=" ++ hex (HMAC.sha256 (Buffer_from Sample.secret) bytes) in
  let answer bytes header :=
    fst (run (sample_POST Sample.remote_empty Sample.secret
                (received bytes (Some header)))) in
  let refused := Returned (mkResponse 401 (lit "Invalid signature")) in
  let accepted :=
    Returned (mkResponse 200
                (quoted "{'success':true,'webflowResponse':{'code':'validation_error'}}")) in
  (JSON.parse (Body_text Sample.marked_bytes) = Returned Sample.event_body
   /\ answer Sample.marked_bytes (of_bytes Sample.marked_bytes) = refused
   /\ answer Sample.marked_bytes (of_bytes (Buffer_from (Body_text Sample.marked_bytes)))
      = accepted)
  /\ (JSON.parse (Body_text Sample.ill_formed_bytes)
      = Returned (VObj [(lit "pageId", VStr [0xFFFD])])
      /\ answer Sample.ill_formed_bytes (of_bytes Sample.ill_formed_bytes) = refused
      /\ answer Sample.ill_formed_bytes
           (of_bytes (Buffer_from (Body_text Sample.ill_formed_bytes)))
         = accepted).
Proof.
  cbv zeta. split; (split; [vm_compute; reflexivity|]);
    (split; vm_compute; reflexivity).
Qed.

(** The sample event as it is received, with a header that has the length
    of the expected signature and differs from it in the last digit, is
    refused; the bytes signed are the bytes received; and the verdict on
    that header is what the comparison returns on the two buffers. The same
    event followed by a space, which parses to the same value, is refused
    under the signature of the event. *)
Lemma signature_check_structure_witness :
  let bytes := Buffer_from Sample.event_text in
  let near :=
    lit "sha256=a780c91130448281d57f2d242e8467014b8407024ad6598933e968b760c12400" in
  run (sample_POST Sample.remote_empty Sample.secret (received bytes (Some near)))
  = (Returned (mkResponse 401 (lit "Invalid signature")), [])
  /\ Buffer_from (Body_text bytes) = bytes
  /\ (forall compare,
        isValidSignature_with compare (Body_text bytes) (Some near) Sample.secret
        = compare (Buffer_from Sample.event_signature) (Buffer_from near))
  /\ JSON.parse (Body_text (bytes ++ [32])) = JSON.parse (Body_text bytes)
  /\ run (sample_POST Sample.remote_empty Sample.secret
            (received (bytes ++ [32]) (Some Sample.event_signature)))
     = (Returned (mkResponse 401 (lit "Invalid signature")), []).
Proof.
  cbv zeta.
  set (bytes := Buffer_from Sample.event_text).
  set (near := lit "sha256=a780c91130448281d57f2d242e8467014b8407024ad6598933e968b760c12400").
  assert (Ep : JSON.parse (Body_text bytes) = Returned Sample.event_body)
    by (vm_compute; reflexivity).
  assert (Ep' : JSON.parse (Body_text (bytes ++ [32])) = Returned Sample.event_body)
    by (vm_compute; reflexivity).
  pose proof (signature_check_structure Sample.JSON_stringify Sample.Number_toString
                Sample.remote_empty Sample.secret (Some (lit "token")) (Some (lit "c1"))
                bytes (Some near) Sample.event_body Ep eq_refl)
    as (H1 & H2 & H3 & _).
  pose proof (signature_check_structure Sample.JSON_stringify Sample.Number_toString
                Sample.remote_empty Sample.secret (Some (lit "token")) (Some (lit "c1"))
                (bytes ++ [32]) (Some Sample.event_signature) Sample.event_body Ep' eq_refl)
    as (H4 & _).
  split; [|split; [|split; [|split]]].
  - apply H1. intros [_ N]. vm_compute in N. discriminate N.
  - apply (H2 Sample.event_text); [reflexivity|vm_compute; discriminate|reflexivity].
  - intros compare.
    assert (Hn : near <> []) by discriminate.
    assert (Hs : Sample.secret <> []) by discriminate.
    destruct (H3 compare near Hn Hs) as [_ H].
    assert (Ee : lit "sha256="
                 ++ hex (HMAC.sha256 (Buffer_from Sample.secret)
                           (Buffer_from (Body_text bytes)))
                 = Sample.event_signature) by (vm_compute; reflexivity).
    cbv zeta in H. rewrite Ee in H. apply H. vm_compute. reflexivity.
  - now rewrite Ep, Ep'.
  - apply H4. intros [_ N]. vm_compute in N. discriminate N.
Defined.

(** ** C5 *)

Lemma end_to_end_example_witness :
  snd (run (sample_POST Sample.remote_empty Sample.secret Sample.event))
  = [mkFetch (lit "https://api.webflow.com/v2/collections/c1/items?slug=hello")
             (lit "GET") sample_headers None;
     mkFetch (lit "https://api.webflow.com/v2/collections/c1/items")
             (lit "POST") sample_headers
             (Some (quoted "{'isArchived':false,'isDraft':false,'fieldData':{'name':'Hello','slug':'hello'}}"))].
Proof.
  pose proof (end_to_end_example Sample.JSON_stringify Sample.Number_toString
                Sample.remote_empty (Some (lit "token")) (Some (lit "c1")))
    as (_ & _ & _ & _ & _ & H & _).
  apply (H (mkFetchResponse 200 (quoted "{'items':[]}"))); vm_compute; reflexivity.
Defined.

(** ** C6 *)

Lemma upsert_updates_or_creates_witness :
  snd (run (sample_upsert Sample.remote_with_item Sample.event_record))
  = [mkFetch (lit "https://api.webflow.com/v2/collections/c1/items?slug=hello")
             (lit "GET") sample_headers None;
     mkFetch (lit "https://api.webflow.com/v2/collections/c1/items/i1")
             (lit "PATCH") sample_headers
             (Some (quoted "{'isArchived':false,'isDraft':false,'fieldData':{'name':'Hello','slug':'hello'}}"))]
  /\ snd (run (sample_upsert Sample.remote_empty Sample.event_record))
     = [mkFetch (lit "https://api.webflow.com/v2/collections/c1/items?slug=hello")
                (lit "GET") sample_headers None;
        mkFetch (lit "https://api.webflow.com/v2/collections/c1/items")
                (lit "POST") sample_headers
                (Some (quoted "{'isArchived':false,'isDraft':false,'fieldData':{'name':'Hello','slug':'hello'}}"))].
Proof.
  split.
  - apply (proj1 (upsert_updates_or_creates Sample.JSON_stringify Sample.Number_toString
                    Sample.remote_with_item (Some (lit "token")) (Some (lit "c1"))
                    Sample.event_record (lit "hello")
                    (mkFetchResponse 200 (quoted "{'items':[{'_id':'i1'}]}"))
                    eq_refl eq_refl)
             (VObj [(lit "_id", VStr (lit "i1"))]) [] (VStr (lit "i1")) (lit "i1"));
      vm_compute; reflexivity.
  - apply (proj2 (upsert_updates_or_creates Sample.JSON_stringify Sample.Number_toString
                    Sample.remote_empty (Some (lit "token")) (Some (lit "c1"))
                    Sample.event_record (lit "hello")
                    (mkFetchResponse 200 (quoted "{'items':[]}"))
                    eq_refl eq_refl)).
    intros first rest H. vm_compute in H. discriminate.
Defined.

(** A list answer whose first item is [null] has no identifier to read:
    the upsert throws after the lookup. The items of the declared type
    [WebflowItem] are objects. *)
Example null_item_throws :
  run (sample_upsert Sample.remote_null_item Sample.event_record)
  = (Thrown TypeError,
     [mkFetch (lit "https://api.webflow.com/v2/collections/c1/items?slug=hello")
              (lit "GET") sample_headers None]).
Proof. vm_compute. reflexivity. Qed.

(** ** C7 *)

(** C7 as stated fails: the sample event is verified, and when the remote
    API cannot be reached the handler throws after the lookup, with no
    response at all. *)
Lemma unreachable_remote_throws :
  isValidSignature (req_text Sample.event) (req_signature Sample.event) Sample.secret
  = Returned true
  /\ run (sample_POST Sample.remote_down Sample.secret Sample.event)
     = (Thrown TypeError,
        [mkFetch (lit "https://api.webflow.com/v2/collections/c1/items?slug=hello")
                 (lit "GET") sample_headers None]).
Proof. split; vm_compute; reflexivity. Qed.

Lemma verified_event_answer_witness :
  run (sample_POST Sample.remote_empty Sample.secret Sample.event)
  = (Returned (mkResponse 200
                 (quoted "{'success':true,'webflowResponse':{'code':'validation_error'}}")),
     snd (run (sample_upsert Sample.remote_empty Sample.event_record))).
Proof.
  apply (proj2 (verified_event_answer Sample.JSON_stringify Sample.Number_toString
                  Sample.remote_empty Sample.secret (Some (lit "token")) (Some (lit "c1"))
                  Sample.event)
           Sample.event_body Sample.event_record
           (VObj [(lit "code", VStr (lit "validation_error"))])
           (snd (run (sample_upsert Sample.remote_empty Sample.event_record))));
    vm_compute; reflexivity.
Defined.

(** ** C8 *)

(** C8 as stated fails: the event below is verified, its [properties] are
    present and hold no [Name], and reading the record throws. *)
Lemma missing_name_throws :
  isValidSignature (req_text Sample.nameless_event) (req_signature Sample.nameless_event)
    Sample.secret
  = Returned true
  /\ JSON.parse (req_text Sample.nameless_event)
     = Returned (VObj [(lit "properties", VObj [])])
  /\ notionData (VObj [(lit "properties", VObj [])]) = Thrown TypeError
  /\ run (sample_POST Sample.remote_empty Sample.secret Sample.nameless_event)
     = (Thrown TypeError, []).
Proof.
  split; [vm_compute; reflexivity|]. split; [vm_compute; reflexivity|].
  split; vm_compute; reflexivity.
Qed.

Lemma absent_fields_and_derivation_witness :
  notionData (VObj [(lit "pageId", VStr (lit "p1"))])
  = Returned (mkNotionData (VStr (lit "p1")) VUndefined VUndefined VUndefined)
  /\ snd (run (sample_POST Sample.remote_empty Sample.secret Sample.bare_event))
     = [mkFetch (lit "https://api.webflow.com/v2/collections/c1/items?slug=undefined")
                (lit "GET") sample_headers None;
        mkFetch (lit "https://api.webflow.com/v2/collections/c1/items")
                (lit "POST") sample_headers
                (Some (quoted "{'isArchived':false,'isDraft':false,'fieldData':{}}"))].
Proof.
  pose proof (absent_fields_and_derivation Sample.JSON_stringify Sample.Number_toString
                Sample.remote_empty Sample.secret (Some (lit "token")) (Some (lit "c1"))
                Sample.bare_event (VObj [(lit "pageId", VStr (lit "p1"))])) as H.
  destruct H as [H _]; [vm_compute; reflexivity | vm_compute; reflexivity |].
  destruct H as [H1 H2]; [vm_compute; reflexivity|].
  split; [exact H1|]. rewrite H2. vm_compute. reflexivity.
Defined.

(** ** C9 *)

Lemma malformed_body_throws_witness :
  run (sample_POST Sample.remote_empty Sample.secret
         (mkRequest (lit "pageId=p1") (Some Sample.event_signature)))
  = (Thrown SyntaxError, []).
Proof.
  apply malformed_body_throws. intros body H. vm_compute in H. discriminate.
Defined.

(** ** C10 *)

Lemma empty_token_is_no_handshake_witness :
  run (sample_POST Sample.remote_empty Sample.secret Sample.empty_token_request)
  = (Returned (mkResponse 401 (lit "Invalid signature")), []).
Proof.
  apply (empty_token_is_no_handshake _ _ _ _ _ _ Sample.empty_token_request
           [(lit "verification_token", VStr [])]).
  - reflexivity.
  - vm_compute. reflexivity.
  - reflexivity.
Defined.

(** * Checks of the platform model *)

Example sha256_abc :
  hex (SHA256.digest (Buffer_from (lit "abc")))
  = lit "ba7816bf8f01cfea414140de5dae2223b00361a396177a9cb410ff61f20015ad".
Proof. vm_compute. reflexivity. Qed.

Example sha256_empty :
  hex (SHA256.digest [])
  = lit "e3b0c44298fc1c149afbf4c8996fb92427ae41e4649b934ca495991b7852b855".
Proof. vm_compute. reflexivity. Qed.

Example sha256_three_blocks :
  hex (SHA256.digest (repeat 97 200))
  = lit "c2a908d98f5df987ade41b5fce213067efbcc21ef2240212a41e54b5e7c28ae5".
Proof. vm_compute. reflexivity. Qed.

Example hmac_fox :
  hex (HMAC.sha256 (Buffer_from (lit "key"))
         (Buffer_from (lit "The quick brown fox jumps over the lazy dog")))
  = lit "f7bc83f430538424b13298e6aa6fb143ef4d59a14946175997479dbc2d1a3cd8".
Proof. vm_compute. reflexivity. Qed.

Example hmac_long_key :
  hex (HMAC.sha256 (repeat 107 100) (Buffer_from (lit "hello")))
  = lit "3fd578d761a4f6703009e92d2e8a0aea22ab9ab50d4ad250dc95d8c369dec3f5".
Proof. vm_compute. reflexivity. Qed.

Example parse_sample :
  JSON.parse (quoted " { 'a' : [1, -2.50e+3, true, null, 'x\u0041\n'], 'b':{}, 'a': [] } ")
  = Returned (VObj [(lit "a", VArr []); (lit "b", VObj [])]).
Proof. vm_compute. reflexivity. Qed.

Example parse_number_sample :
  JSON.parse (lit " [1, -2.50e+3, 0.001E-2 ,0] ")
  = Returned (VArr [VNum (mkNumber false 1 0); VNum (mkNumber true 250 1);
                    VNum (mkNumber false 1 (-5)); VNum (mkNumber false 0 0)]).
Proof. vm_compute. reflexivity. Qed.

Example utf8_samples :
  Buffer_from [0xE9; 0x20AC; 0xD83D; 0xDE00]
  = [0xC3; 0xA9; 0xE2; 0x82; 0xAC; 0xF0; 0x9F; 0x98; 0x80]
  /\ Buffer_from [0xD83D] = Buffer_from [0xFFFD]
  /\ Buffer_from [0xDE00; 0xD83D; 65] = [0xEF; 0xBF; 0xBD; 0xEF; 0xBF; 0xBD; 65].
Proof. repeat split. Qed.

(** The decoder on bytes that are not UTF-8: an overlong form, a surrogate,
    a sequence cut short, a code point above U+10FFFF. *)
Example utf8_decode_samples :
  utf8_decode [0xC3; 0xA9; 0xE2; 0x82; 0xAC; 0xF0; 0x9F; 0x98; 0x80]
  = [0xE9; 0x20AC; 0xD83D; 0xDE00]
  /\ utf8_decode [0xFF] = [0xFFFD]
  /\ utf8_decode [0xE2; 0x82] = [0xFFFD]
  /\ utf8_decode [0xC0; 0x80] = [0xFFFD; 0xFFFD]
  /\ utf8_decode [0xE0; 0x80; 0x80] = [0xFFFD; 0xFFFD; 0xFFFD]
  /\ utf8_decode [0xED; 0xA0; 0x80] = [0xFFFD; 0xFFFD; 0xFFFD]
  /\ utf8_decode [0xF0; 0x9F; 0x41] = [0xFFFD; 0x41]
  /\ utf8_decode [0xF4; 0x90; 0x80; 0x80] = [0xFFFD; 0xFFFD; 0xFFFD; 0xFFFD]
  /\ Body_text [0xEF; 0xBB; 0xBF; 0x41] = [0x41]
  /\ Body_text [0x41; 0xEF; 0xBB; 0xBF] = [0x41; 0xFEFF].
Proof. repeat split. Qed.

(** Number literals that are zero as doubles, and that are not. *)
Example falsy_numbers :
  map (fun text => match JSON.parse (lit text) with
                   | Returned v => truthy v
                   | Thrown _ => true
                   end)
      ["0"; "-0"; "0.000e5"; "1e-400"; "2e-324"; "3e-324"; "1e-323"; "1"; "1e400"]%string
  = [false; false; false; false; false; true; true; true; true].
Proof. vm_compute. reflexivity. Qed.

Example to_string_samples :
  ToString Sample.Number_toString (VArr [VStr (lit "a"); VNull; VArr [VBool true; VUndefined]])
  = Returned (lit "a,,true,")
  /\ map (fun text => match JSON.parse (lit text) with
                      | Returned v => ToString Sample.Number_toString v
                      | Thrown e => Thrown e
                      end)
         ["0"; "-0"; "42"; "-7"; "1.0"; "2.50e+3"; "1200e-2"; "9007199254740991"]%string
     = map (fun text => Returned (lit text))
         ["0"; "0"; "42"; "-7"; "1"; "2500"; "12"; "9007199254740991"]%string
  /\ ToString Sample.Number_toString (VObj [(lit "k", VNull)])
     = Returned (lit "[object Object]")
  /\ ToString Sample.Number_toString (VObj [(lit "toString", VNull)]) = Thrown TypeError.
Proof. repeat split. Qed.

(** * Further properties of the handler *)

(** A lower-case hexadecimal digit. *)
Definition is_lower_hex (c : Z) : Prop := 48 <= c <= 57 \/ 97 <= c <= 102.

Lemma be_bytes_length (n : nat) (x : Z) : length (SHA256.be_bytes n x) = n.
Proof.
  revert x; induction n as [|n IH]; intros x; [reflexivity|].
  cbn [SHA256.be_bytes]. rewrite length_app, IH. simpl. lia.
Qed.

Lemma digest_length (msg : Buffer) : length (SHA256.digest msg) = 32%nat.
Proof.
  unfold SHA256.digest. cbv zeta. cbn [flat_map].
  rewrite !length_app, !be_bytes_length. reflexivity.
Qed.

Lemma hex_length (bs : Buffer) : length (hex bs) = (2 * length bs)%nat.
Proof.
  induction bs as [|b bs IH]; [reflexivity|].
  unfold hex in *. cbn [flat_map app length]. rewrite IH. lia.
Qed.

Lemma hex_digit_lower (n : Z) : 0 <= n < 16 -> is_lower_hex (hex_digit n).
Proof.
  intros Hn. unfold hex_digit, is_lower_hex.
  destruct (Z.ltb_spec n 10); lia.
Qed.

Lemma hex_lower (bs : Buffer) : Forall is_byte bs -> Forall is_lower_hex (hex bs).
Proof.
  induction 1 as [|b bs Hb _ IH]; [constructor|].
  destruct (nibbles b Hb) as (H1 & H2 & _).
  unfold hex in *. cbn [flat_map app].
  constructor; [now apply hex_digit_lower|].
  constructor; [now apply hex_digit_lower|exact IH].
Qed.

(** X2. The computed signature is always 71 code units: ["sha256="] and 64
    lower-case hexadecimal digits. Its buffer is 71 bytes long, so that a
    header whose UTF-8 encoding is not 71 bytes long is refused by the
    length check, whatever the body and the secret. *)
Theorem signature_shape (rawBody token : js_string) :
  (exists digits,
      calculateNotionSignature rawBody token = lit "sha256=" ++ digits
      /\ length digits = 64%nat /\ Forall is_lower_hex digits)
  /\ length (calculateNotionSignature rawBody token) = 71%nat
  /\ length (Buffer_from (calculateNotionSignature rawBody token)) = 71%nat
  /\ (forall header,
        length (Buffer_from header) <> 71%nat ->
        isValidSignature rawBody (Some header) token = Returned false).
Proof.
  assert (L : length (calculateNotionSignature rawBody token) = 71%nat).
  { unfold calculateNotionSignature. rewrite length_app, hex_length.
    unfold HMAC.sha256. cbv zeta. rewrite digest_length. reflexivity. }
  split; [|split; [exact L|split]].
  - exists (hex (HMAC.sha256 (Buffer_from token) (Buffer_from rawBody))).
    split; [reflexivity|]. split.
    + rewrite hex_length. unfold HMAC.sha256. cbv zeta. now rewrite digest_length.
    + apply hex_lower, hmac_range.
  - rewrite Buffer_from_ascii by apply signature_ascii. exact L.
  - intros header N.
    destruct (isValidSignature_spec rawBody (Some header) token) as (r & -> & Hr).
    destruct r; [|reflexivity]. exfalso.
    destruct Hr as [Hr _]. destruct (Hr eq_refl) as [_ E]. injection E as ->.
    apply N. rewrite Buffer_from_ascii by apply signature_ascii. exact L.
Qed.

(** X1. [isValidSignature] never throws: the [RangeError] of
    [timingSafeEqual] is out of reach behind the length check. It returns
    [true] exactly when the secret is not empty and the header is, code unit
    for code unit, the signature computed over the body; a missing or empty
    header and an empty secret give [false]. *)
Theorem signature_check_total (rawBody : js_string) (headerSignature : option js_string)
    (token : js_string) :
  (forall e, isValidSignature rawBody headerSignature token <> Thrown e)
  /\ (isValidSignature rawBody headerSignature token = Returned true
      <-> token <> []
          /\ headerSignature = Some (calculateNotionSignature rawBody token))
  /\ (isValidSignature rawBody headerSignature token = Returned false
      <-> token = []
          \/ headerSignature <> Some (calculateNotionSignature rawBody token)).
Proof.
  destruct (isValidSignature_spec rawBody headerSignature token) as (r & E & Hr).
  rewrite E. split; [discriminate|]. split.
  - rewrite <- Hr. split; [intros H; now injection H|intros ->; reflexivity].
  - split.
    + intros H. injection H as ->.
      destruct token as [|c token]; [now left|]. right. intros Eh.
      destruct Hr as [_ Hr]. discriminate Hr. split; [discriminate|exact Eh].
    + intros H. f_equal. destruct r; [|reflexivity]. exfalso.
      destruct Hr as [Hr _]. destruct (Hr eq_refl) as [Ht Eh].
      destruct H as [H|H]; contradiction.
Qed.

Section Further.

Variable JSON_stringify : value -> js_string.
Variable Number_toString : number -> js_string.
Variable fetch : FetchRequest -> fetch_result.
Variable secret : js_string.
Variable api_token collection : option js_string.

Local Abbreviation handler :=
  (POST JSON_stringify Number_toString fetch secret api_token collection).
Local Abbreviation upsert :=
  (updateOrCreateWebflowItem JSON_stringify Number_toString fetch api_token collection).
Local Abbreviation text_of := (ToString Number_toString).
Local Abbreviation headers := (api_headers api_token).
Local Abbreviation base_url := (items_url collection).

Lemma member_throws (v : value) (k : js_string) (e : exn) :
  member v k = Thrown e -> e = TypeError.
Proof. destruct v; simpl; congruence. Qed.

Lemma ToString_throws : forall (v : value) (e : exn),
  text_of v = Thrown e -> e = TypeError.
Proof.
  fix IH 1. intros [| | [|] | n | s | elems | props] e; cbn [ToString];
    try discriminate.
  - match goal with |- ?j elems = _ -> _ => set (join := j) end.
    revert e. induction elems as [|x rest IHl]; intros e; [discriminate|].
    change (join (x :: rest))
      with (bindO (if nullish x then Returned [] else text_of x)
              (fun sx => match rest with
                         | [] => Returned sx
                         | _ :: _ => bindO (join rest)
                                       (fun sr => Returned (sx ++ lit "," ++ sr))
                         end)).
    destruct (if nullish x then Returned [] else text_of x) as [sx|ex] eqn:Ex;
      cbn [bindO].
    + destruct rest as [|y rest']; [discriminate|].
      destruct (join (y :: rest')) as [sr|er]; cbn [bindO]; [discriminate|].
      intros H. injection H as <-. now apply IHl.
    + intros H. injection H as <-.
      destruct (nullish x); [discriminate|]. exact (IH x ex Ex).
  - destruct (get_own (lit "toString") props); congruence.
Qed.

Lemma notionData_throws (body : value) (e : exn) :
  notionData body = Thrown e -> e = TypeError.
Proof. rewrite notionData_spec. destruct (derivable body); congruence. Qed.

(** The call after the lookup: it carries the common headers and the item
    payload, and it is a PATCH to an item or the POST to the collection. *)
Definition is_write (data : NotionData) (call : FetchRequest) : Prop :=
  fetch_headers call = headers
  /\ fetch_body call
     = Some (JSON_stringify (item_payload (title data) (slug data) (content data)))
  /\ ((fetch_method call = lit "PATCH"
       /\ exists id_text, fetch_url call = base_url ++ lit "/" ++ id_text)
      \/ (fetch_method call = lit "POST" /\ fetch_url call = base_url)).

(** The lookup by the text [slug_text]. *)
Definition lookup_of (slug_text : js_string) : FetchRequest :=
  mkFetch (base_url ++ lit "?slug=" ++ slug_text) (lit "GET") headers None.

(** An item whose identifier cannot be put into the URL of an update:
    reading [_id] throws (the item is [null]), or what is read has no text. *)
Definition unreadable_id (item : value) : Prop :=
  member item (lit "_id") = Thrown TypeError
  \/ exists itemId,
       member item (lit "_id") = Returned itemId /\ text_of itemId = Thrown TypeError.

(** The runs of the upsert, sorted by where they stop. *)
Lemma upsert_cases (data : NotionData) :
  (text_of (slug data) = Thrown TypeError
   /\ run (upsert data) = (Thrown TypeError, []))
  \/ exists slug_text,
       text_of (slug data) = Returned slug_text
       /\ ((fetch (lookup_of slug_text) = Rejected
            /\ run (upsert data) = (Thrown TypeError, [lookup_of slug_text]))
           \/ ((exists res first rest,
                   fetch (lookup_of slug_text) = Resolved res
                   /\ opt_member (json_or_empty res) (lit "items") = VArr (first :: rest)
                   /\ unreadable_id first)
               /\ run (upsert data) = (Thrown TypeError, [lookup_of slug_text]))
           \/ exists write,
                is_write data write
                /\ ((exists res,
                        fetch write = Resolved res
                        /\ run (upsert data)
                           = (Returned (json_or_empty res), [lookup_of slug_text; write]))
                    \/ (fetch write = Rejected
                        /\ run (upsert data)
                           = (Thrown TypeError, [lookup_of slug_text; write])))).
Proof.
  rewrite upsert_run. cbv zeta.
  destruct (text_of (slug data)) as [slug_text|e] eqn:Es.
  2:{ left. apply ToString_throws in Es. subst e. split; reflexivity. }
  right. exists slug_text. split; [reflexivity|]. fold (lookup_of slug_text).
  destruct (fetch (lookup_of slug_text)) as [res|] eqn:F; [|left; split; reflexivity].
  right.
  assert (Hsend : forall write,
             is_write data write ->
             exists write0,
               is_write data write0
               /\ ((exists res0,
                       fetch write0 = Resolved res0
                       /\ send fetch (lookup_of slug_text) write
                          = (Returned (json_or_empty res0), [lookup_of slug_text; write0]))
                   \/ (fetch write0 = Rejected
                       /\ send fetch (lookup_of slug_text) write
                          = (Thrown TypeError, [lookup_of slug_text; write0])))).
  { intros write W. exists write. split; [exact W|]. unfold send.
    destruct (fetch write) as [res0|]; [left; exists res0|right]; split; reflexivity. }
  assert (Hcreate : is_write data
                      (mkFetch base_url (lit "POST") headers
                         (Some (JSON_stringify
                                  (item_payload (title data) (slug data) (content data)))))).
  { split; [reflexivity|]. split; [reflexivity|]. right. split; reflexivity. }
  destruct (opt_member (json_or_empty res) (lit "items"))
    as [| | | | | [|first rest] |] eqn:Ei0; try (right; apply Hsend, Hcreate).
  destruct (member first (lit "_id")) as [itemId|e] eqn:Em.
  2:{ left. pose proof (member_throws _ _ _ Em) as He. subst e.
      split; [|reflexivity]. exists res, first, rest.
      split; [reflexivity|]. split; [exact Ei0|]. left. exact Em. }
  destruct (text_of itemId) as [id_text|e] eqn:Ei.
  2:{ left. pose proof (ToString_throws _ _ Ei) as He. subst e.
      split; [|reflexivity]. exists res, first, rest.
      split; [reflexivity|]. split; [exact Ei0|]. right. exists itemId. auto. }
  right. apply Hsend.
  split; [reflexivity|]. split; [reflexivity|]. left.
  split; [reflexivity|exists id_text; reflexivity].
Qed.

(** The runs of the handler, sorted by where they stop. *)
Lemma POST_cases (req : Request) :
  ((forall body, JSON.parse (req_text req) <> Returned body)
   /\ run (handler req) = (Thrown SyntaxError, []))
  \/ exists body,
       JSON.parse (req_text req) = Returned body
       /\ ((no_signature (req_signature req) = true
            /\ truthy (opt_member body (lit "verification_token")) = true
            /\ ((secret <> []
                 /\ run (handler req)
                    = (Returned (mkResponse 401 (lit "Verification token mismatch")), []))
                \/ run (handler req)
                   = (Returned (mkResponse 200
                                  (JSON_stringify (VObj [(lit "success", VBool true)]))),
                      [])))
           \/ (isValidSignature (req_text req) (req_signature req) secret = Returned false
               /\ run (handler req)
                  = (Returned (mkResponse 401 (lit "Invalid signature")), []))
           \/ (isValidSignature (req_text req) (req_signature req) secret = Returned true
               /\ ((notionData body = Thrown TypeError
                    /\ run (handler req) = (Thrown TypeError, []))
                   \/ exists data,
                        notionData body = Returned data
                        /\ run (handler req)
                           = match run (upsert data) with
                             | (Returned w, calls) =>
                                 (Returned
                                    (mkResponse 200
                                       (JSON_stringify
                                          (VObj [(lit "success", VBool true);
                                                 (lit "webflowResponse", w)]))),
                                  calls)
                             | (Thrown e, calls) => (Thrown e, calls)
                             end))).
Proof.
  destruct (JSON.parse (req_text req)) as [body|e] eqn:E.
  2:{ left. split; [intros body; discriminate|].
      unfold POST, run, bind, lift. cbv zeta. rewrite E.
      now rewrite (parse_throws_SyntaxError _ _ E). }
  right. exists body. split; [reflexivity|].
  destruct (no_signature (req_signature req)
            && truthy (opt_member body (lit "verification_token"))) eqn:Hh.
  { left. apply andb_true_iff in Hh. destruct Hh as [Hn Ht].
    split; [exact Hn|]. split; [exact Ht|].
    unfold POST, run, bind, lift, ret. cbv zeta. rewrite E. cbv beta iota.
    rewrite Hn, Ht. cbn [andb].
    destruct secret as [|c s']; [right; reflexivity|]. cbn [is_empty negb andb].
    destruct (negb (strict_equal_string _ _)); [left; split; [discriminate|]|right];
      reflexivity. }
  right.
  destruct (isValidSignature_spec (req_text req) (req_signature req) secret)
    as (r & Ev & _).
  destruct r.
  2:{ left. split; [exact Ev|]. exact (POST_refused _ _ _ _ _ _ req body E Hh Ev). }
  right. split; [exact Ev|].
  rewrite (POST_accepted _ _ _ _ _ _ req body E Ev).
  unfold run, bind, lift, ret.
  destruct (notionData body) as [data|e] eqn:Ed.
  - right. exists data. split; [reflexivity|].
    destruct (updateOrCreateWebflowItem _ _ _ _ _ data []) as [[w|e] calls]; reflexivity.
  - left. apply notionData_throws in Ed. subst e. split; reflexivity.
Qed.

(** The calls of the handler are those of the upsert, when it gets there. *)
Lemma POST_calls (req : Request) :
  snd (run (handler req)) = []
  \/ exists body data,
       JSON.parse (req_text req) = Returned body
       /\ isValidSignature (req_text req) (req_signature req) secret = Returned true
       /\ notionData body = Returned data
       /\ snd (run (handler req)) = snd (run (upsert data)).
Proof.
  destruct (POST_cases req) as [[_ ->] | (body & E & H)]; [now left|].
  destruct H as [(_ & _ & [[_ ->] | ->]) | [[_ ->] | (Hv & [[_ ->] | (data & Hd & ->)])]];
    try (now left).
  right. exists body, data. repeat (split; [assumption|]).
  destruct (run (upsert data)) as [[w|e] calls]; reflexivity.
Qed.

(** X3. The handler contacts the remote API only for a request whose
    signature header is the signature of its body under a secret that is not
    empty: a request with a missing or wrong signature, a handshake, a body
    that is not JSON and an unset secret all leave the remote API alone. *)
Theorem remote_calls_need_signature (req : Request) :
  snd (run (handler req)) <> [] ->
  secret <> []
  /\ req_signature req = Some (calculateNotionSignature (req_text req) secret)
  /\ exists body data,
       JSON.parse (req_text req) = Returned body
       /\ notionData body = Returned data
       /\ snd (run (handler req)) = snd (run (upsert data)).
Proof.
  intros N. destruct (POST_calls req) as [E | (body & data & E & Hv & Hd & Hc)];
    [contradiction|].
  destruct (isValidSignature_spec (req_text req) (req_signature req) secret)
    as (r & Er & Hr).
  rewrite Hv in Er. injection Er as <-. destruct Hr as [Hr _].
  destruct (Hr eq_refl) as [Hs Hh].
  split; [exact Hs|]. split; [exact Hh|]. exists body, data. auto.
Qed.

(** X5. The answers of the handler are of four kinds: 401 "Verification
    token mismatch" (only when the signature header is missing or empty and
    a secret is set), 401 "Invalid signature", 200 [{ success: true }] (only
    when the signature header is missing or empty), each with no remote
    call, and 200 with a [webflowResponse] after exactly two remote calls.
    What it throws is a [SyntaxError] before any call, on a body that is not
    JSON, or a [TypeError] after at most two calls, and after two only when
    the second call failed. It never throws a [RangeError]. *)
Theorem handler_outcomes (req : Request) :
  match run (handler req) with
  | (Returned r, calls) =>
      (r = mkResponse 401 (lit "Verification token mismatch")
       /\ calls = []
       /\ (req_signature req = None \/ req_signature req = Some [])
       /\ secret <> [])
      \/ (r = mkResponse 401 (lit "Invalid signature") /\ calls = [])
      \/ (r = mkResponse 200 (JSON_stringify (VObj [(lit "success", VBool true)]))
          /\ calls = []
          /\ (req_signature req = None \/ req_signature req = Some []))
      \/ (exists w lookup write,
             r = mkResponse 200
                   (JSON_stringify (VObj [(lit "success", VBool true);
                                          (lit "webflowResponse", w)]))
             /\ calls = [lookup; write])
  | (Thrown e, calls) =>
      (e = SyntaxError /\ calls = []
       /\ forall body, JSON.parse (req_text req) <> Returned body)
      \/ (e = TypeError /\ (length calls <= 2)%nat
          /\ forall lookup write, calls = [lookup; write] -> fetch write = Rejected)
  end.
Proof.
  assert (Hno : no_signature (req_signature req) = true ->
                req_signature req = None \/ req_signature req = Some []).
  { destruct (req_signature req) as [[|c h]|]; simpl; auto; discriminate. }
  destruct (POST_cases req) as [[Hp ->] | (body & E & H)]; [left; auto|].
  destruct H as [(Hn & _ & [[Hs ->] | ->])
                | [[_ ->] | (Hv & [[_ ->] | (data & Hd & ->)])]].
  - left. auto.
  - right. right. left. auto.
  - right. left. auto.
  - right. split; [reflexivity|]. split; [simpl; lia|]. intros ? ? H. discriminate H.
  - destruct (upsert_cases data)
      as [[_ ->] | (st & _ & [[_ ->] | [[_ ->] | (write & _ & [(res & _ & ->) | [F ->]])]])].
    + right. split; [reflexivity|]. split; [simpl; lia|]. intros ? ? H. discriminate H.
    + right. split; [reflexivity|]. split; [simpl; lia|]. intros ? ? H. discriminate H.
    + right. split; [reflexivity|]. split; [simpl; lia|]. intros ? ? H. discriminate H.
    + right. right. right. eauto.
    + right. split; [reflexivity|]. split; [simpl; lia|].
      intros ? ? H. injection H as <- <-. exact F.
Qed.

(** X6. The upsert issues at most two calls. The first is always the
    lookup: a GET with no body for the slug put as text into the query. A
    second call is a PATCH to one item or the POST to the collection, never
    both, with the body [{ isArchived: false, isDraft: false, fieldData:
    { name, slug, content } }]. Every call carries the same two headers. *)
Theorem upsert_call_discipline (data : NotionData) :
  let calls := snd (run (upsert data)) in
  (length calls <= 2)%nat
  /\ (forall call, In call calls -> fetch_headers call = headers)
  /\ (forall first rest,
        calls = first :: rest ->
        fetch_method first = lit "GET" /\ fetch_body first = None
        /\ (exists slug_text, text_of (slug data) = Returned slug_text
                              /\ fetch_url first = base_url ++ lit "?slug=" ++ slug_text)
        /\ forall write, In write rest ->
             fetch_body write
             = Some (JSON_stringify
                       (VObj [(lit "isArchived", VBool false);
                              (lit "isDraft", VBool false);
                              (lit "fieldData",
                               VObj [(lit "name", title data); (lit "slug", slug data);
                                     (lit "content", content data)])]))
             /\ ((fetch_method write = lit "PATCH"
                  /\ exists id_text, fetch_url write = base_url ++ lit "/" ++ id_text)
                 \/ (fetch_method write = lit "POST" /\ fetch_url write = base_url))).
Proof.
  cbv zeta.
  assert (Hlook : forall st,
             text_of (slug data) = Returned st ->
             fetch_method (lookup_of st) = lit "GET" /\ fetch_body (lookup_of st) = None
             /\ exists slug_text, text_of (slug data) = Returned slug_text
                                  /\ fetch_url (lookup_of st)
                                     = base_url ++ lit "?slug=" ++ slug_text).
  { intros st Es. split; [reflexivity|]. split; [reflexivity|]. exists st. auto. }
  destruct (upsert_cases data)
    as [[_ ->] | (st & Es & [[_ ->] | [[_ ->] | (write & W & [(res & _ & ->) | [_ ->]])]])];
    cbn [snd length].
  - split; [lia|]. split; [intros ? []|]. intros ? ? H. discriminate H.
  - split; [lia|]. split; [intros ? [<-|[]]; reflexivity|].
    intros first rest H. injection H as <- <-.
    destruct (Hlook st Es) as (H1 & H2 & H3). repeat (split; [assumption|]).
    intros ? [].
  - split; [lia|]. split; [intros ? [<-|[]]; reflexivity|].
    intros first rest H. injection H as <- <-.
    destruct (Hlook st Es) as (H1 & H2 & H3). repeat (split; [assumption|]).
    intros ? [].
  - destruct W as (Wh & Wb & Wm).
    split; [lia|]. split; [intros ? [<-|[<-|[]]]; [reflexivity|exact Wh]|].
    intros first rest H. injection H as <- <-.
    destruct (Hlook st Es) as (H1 & H2 & H3). repeat (split; [assumption|]).
    intros ? [<-|[]]. split; [exact Wb|exact Wm].
  - destruct W as (Wh & Wb & Wm).
    split; [lia|]. split; [intros ? [<-|[<-|[]]]; [reflexivity|exact Wh]|].
    intros first rest H. injection H as <- <-.
    destruct (Hlook st Es) as (H1 & H2 & H3). repeat (split; [assumption|]).
    intros ? [<-|[]]. split; [exact Wb|exact Wm].
Qed.

(** X8. What the upsert returns is the decoded answer to a write (the PATCH
    or the POST), never the answer to the lookup, and it has then issued
    exactly the lookup and that write. Whatever it throws is a [TypeError]:
    before any call when the slug has no text; after the lookup alone when
    the lookup failed, or was answered with a first item whose identifier
    cannot be read; and after a write only when that write failed. *)
Theorem upsert_outcome_and_calls (data : NotionData) :
  match run (upsert data) with
  | (Returned w, calls) =>
      exists lookup write res,
        calls = [lookup; write]
        /\ fetch_method lookup = lit "GET" /\ fetch_method write <> lit "GET"
        /\ fetch write = Resolved res /\ w = json_or_empty res
  | (Thrown e, calls) =>
      e = TypeError
      /\ ((calls = [] /\ text_of (slug data) = Thrown TypeError)
          \/ (exists lookup,
                 calls = [lookup] /\ fetch_method lookup = lit "GET"
                 /\ (fetch lookup = Rejected
                     \/ exists res first rest,
                          fetch lookup = Resolved res
                          /\ opt_member (json_or_empty res) (lit "items")
                             = VArr (first :: rest)
                          /\ unreadable_id first))
          \/ (exists lookup write,
                 calls = [lookup; write]
                 /\ fetch_method lookup = lit "GET" /\ fetch_method write <> lit "GET"
                 /\ fetch write = Rejected))
  end.
Proof.
  assert (Hw : forall write, is_write data write -> fetch_method write <> lit "GET").
  { intros write (_ & _ & [[-> _] | [-> _]]); vm_compute; discriminate. }
  destruct (upsert_cases data)
    as [[Es ->] | (st & Es & [[F ->] | [[U ->] | (write & W & [(res & F & ->) | [F ->]])]])].
  - split; [reflexivity|]. left. auto.
  - split; [reflexivity|]. right. left. exists (lookup_of st). auto.
  - split; [reflexivity|]. right. left. exists (lookup_of st).
    split; [reflexivity|]. split; [reflexivity|]. right. exact U.
  - exists (lookup_of st), write, res.
    split; [reflexivity|]. split; [reflexivity|]. split; [now apply Hw|auto].
  - split; [reflexivity|]. right. right. exists (lookup_of st), write.
    split; [reflexivity|]. split; [reflexivity|]. split; [now apply Hw|exact F].
Qed.

(** X7. An event without a slug is not skipped (the test of [slug] and
    [title] before the upsert only logs): for a verified event whose record
    has no slug, the handler looks up the slug ["undefined"], and when the
    answer holds no item it creates an item whose [fieldData] has no slug. *)
Theorem event_without_slug_is_not_skipped (req : Request) (body : value) :
  JSON.parse (req_text req) = Returned body ->
  isValidSignature (req_text req) (req_signature req) secret = Returned true ->
  derivable body = true ->
  slug (derived_record body) = VUndefined ->
  let lookup :=
    mkFetch (base_url ++ lit "?slug=undefined") (lit "GET") headers None in
  let create :=
    mkFetch base_url (lit "POST") headers
      (Some (JSON_stringify
               (VObj [(lit "isArchived", VBool false);
                      (lit "isDraft", VBool false);
                      (lit "fieldData",
                       VObj [(lit "name", title (derived_record body));
                             (lit "slug", VUndefined);
                             (lit "content", content (derived_record body))])]))) in
  (exists rest, snd (run (handler req)) = lookup :: rest)
  /\ (forall res,
        fetch lookup = Resolved res ->
        (forall first others,
            opt_member (json_or_empty res) (lit "items") <> VArr (first :: others)) ->
        snd (run (handler req)) = [lookup; create]).
Proof.
  intros E Hv Hd Hs lookup create.
  assert (Hc : snd (run (handler req)) = snd (run (upsert (derived_record body)))).
  { rewrite (POST_accepted _ _ _ _ _ _ req body E Hv), notionData_spec, Hd.
    unfold run, bind, lift, ret.
    destruct (updateOrCreateWebflowItem _ _ _ _ _ (derived_record body) [])
      as [[w|e] calls]; reflexivity. }
  rewrite Hc, upsert_run, Hs. cbv zeta. cbn [ToString].
  change (base_url ++ lit "?slug=" ++ lit "undefined")
    with (base_url ++ lit "?slug=undefined").
  fold lookup. split.
  - destruct (fetch lookup) as [res|]; [|exists []; reflexivity].
    destruct (opt_member (json_or_empty res) (lit "items"))
      as [| | | | | [|first rest] |];
      try (unfold send; split_fetch; eexists; reflexivity).
    destruct (member first (lit "_id")) as [itemId|e]; [|exists []; reflexivity].
    destruct (text_of itemId) as [id_text|e]; [|exists []; reflexivity].
    unfold send; split_fetch; eexists; reflexivity.
  - intros res F Hno. rewrite F.
    destruct (opt_member (json_or_empty res) (lit "items"))
      as [| | | | | [|first rest] |];
      try (unfold send; split_fetch; reflexivity).
    now elim (Hno first rest).
Qed.

(** Every call of the handler carries the common headers and a URL under
    the collection's items. *)
Lemma POST_calls_shape (req : Request) (call : FetchRequest) :
  In call (snd (run (handler req))) ->
  fetch_headers call = headers
  /\ exists rest, fetch_url call = base_url ++ rest.
Proof.
  destruct (POST_calls req) as [-> | (body & data & _ & _ & _ & ->)]; [intros []|].
  assert (Hl : forall st, fetch_headers (lookup_of st) = headers
                          /\ exists rest, fetch_url (lookup_of st) = base_url ++ rest)
    by (intros st; split; [reflexivity|eexists; reflexivity]).
  assert (Hw : forall write, is_write data write ->
                             fetch_headers write = headers
                             /\ exists rest, fetch_url write = base_url ++ rest).
  { intros write (Wh & _ & [[_ [id_text ->]] | [_ ->]]); (split; [exact Wh|]).
    - eexists; reflexivity.
    - exists []. now rewrite app_nil_r. }
  destruct (upsert_cases data)
    as [[_ ->] | (st & _ & [[_ ->] | [[_ ->] | (write & W & [(res & _ & ->) | [_ ->]])]])];
    cbn [snd]; intros H.
  - destruct H.
  - destruct H as [<-|[]]. apply Hl.
  - destruct H as [<-|[]]. apply Hl.
  - destruct H as [<-|[<-|[]]]; [apply Hl|now apply Hw].
  - destruct H as [<-|[<-|[]]]; [apply Hl|now apply Hw].
Qed.

End Further.

(** X4. With no secret configured the handler never contacts the remote
    API and never reads a record: it throws on a body that is not JSON,
    answers 401 "Invalid signature" to every event, whatever its signature
    header, and accepts every handshake, whatever its (truthy) token. *)
Theorem empty_secret_answers
    (JSON_stringify : value -> js_string) (Number_toString : number -> js_string)
    (fetch : FetchRequest -> fetch_result) (api_token collection : option js_string)
    (req : Request) :
  let out := run (POST JSON_stringify Number_toString fetch [] api_token collection req) in
  let accepted :=
    Returned (mkResponse 200 (JSON_stringify (VObj [(lit "success", VBool true)]))) in
  snd out = []
  /\ (fst out = Thrown SyntaxError
      \/ fst out = Returned (mkResponse 401 (lit "Invalid signature"))
      \/ fst out = accepted)
  /\ (forall body,
        JSON.parse (req_text req) = Returned body ->
        (no_signature (req_signature req)
           && truthy (opt_member body (lit "verification_token")) = true ->
         fst out = accepted)
        /\ (no_signature (req_signature req)
              && truthy (opt_member body (lit "verification_token")) = false ->
            fst out = Returned (mkResponse 401 (lit "Invalid signature")))).
Proof.
  cbv zeta.
  assert (Hv : isValidSignature (req_text req) (req_signature req) [] = Returned false).
  { unfold isValidSignature, isValidSignature_with.
    destruct (req_signature req) as [h|]; [|reflexivity].
    now rewrite orb_true_r. }
  destruct (JSON.parse (req_text req)) as [body|e] eqn:E.
  2:{ assert (Hrun : run (POST JSON_stringify Number_toString fetch [] api_token
                            collection req) = (Thrown SyntaxError, [])).
      { unfold POST, run, bind, lift. cbv zeta. rewrite E.
        now rewrite (parse_throws_SyntaxError _ _ E). }
      rewrite Hrun. split; [reflexivity|]. split; [now left|]. intros ? H. discriminate H. }
  destruct (no_signature (req_signature req)
            && truthy (opt_member body (lit "verification_token"))) eqn:Hh.
  - assert (Hrun : run (POST JSON_stringify Number_toString fetch [] api_token
                          collection req)
                   = (Returned (mkResponse 200
                                  (JSON_stringify (VObj [(lit "success", VBool true)]))),
                      [])).
    { unfold POST, run, bind, lift, ret. cbv zeta. rewrite E. cbv beta iota.
      rewrite Hh. reflexivity. }
    rewrite Hrun. split; [reflexivity|]. split; [right; right; reflexivity|].
    intros body' E'. injection E' as <-. rewrite Hh.
    split; [reflexivity|discriminate].
  - rewrite (POST_refused JSON_stringify Number_toString fetch [] api_token collection
               req body E Hh Hv).
    split; [reflexivity|]. split; [right; left; reflexivity|].
    intros body' E'. injection E' as <-. rewrite Hh.
    split; [discriminate|reflexivity].
Qed.

(** X9. A configuration that is not set is sent as it is: with no API token
    and no collection identifier in the environment, every call the handler
    issues carries the header [Authorization: Bearer undefined] and goes to
    the collection ["undefined"]. *)
Theorem unset_configuration_is_sent
    (JSON_stringify : value -> js_string) (Number_toString : number -> js_string)
    (fetch : FetchRequest -> fetch_result) (secret : js_string)
    (req : Request) (call : FetchRequest) :
  In call (snd (run (POST JSON_stringify Number_toString fetch secret None None req))) ->
  fetch_headers call
  = [(lit "Authorization", lit "Bearer undefined");
     (lit "Content-Type", lit "application/json")]
  /\ exists rest,
       fetch_url call
       = lit "https://api.webflow.com/v2/collections/undefined/items" ++ rest.
Proof.
  intros H.
  destruct (POST_calls_shape JSON_stringify Number_toString fetch secret None None
              req call H) as [Hh [rest Hu]].
  split; [exact Hh|]. exists rest. exact Hu.
Qed.

(** ** Instances of the further properties *)

Lemma remote_calls_need_signature_witness :
  Sample.secret <> []
  /\ req_signature Sample.event
     = Some (calculateNotionSignature (req_text Sample.event) Sample.secret).
Proof.
  assert (N : snd (run (sample_POST Sample.remote_empty Sample.secret Sample.event)) <> [])
    by (vm_compute; discriminate).
  destruct (remote_calls_need_signature Sample.JSON_stringify Sample.Number_toString
              Sample.remote_empty Sample.secret (Some (lit "token")) (Some (lit "c1"))
              Sample.event N) as (H1 & H2 & _).
  split; [exact H1|exact H2].
Defined.

Lemma event_without_slug_is_not_skipped_witness :
  snd (run (sample_POST Sample.remote_empty Sample.secret Sample.bare_event))
  = [mkFetch (lit "https://api.webflow.com/v2/collections/c1/items?slug=undefined")
             (lit "GET") sample_headers None;
     mkFetch (lit "https://api.webflow.com/v2/collections/c1/items")
             (lit "POST") sample_headers
             (Some (quoted "{'isArchived':false,'isDraft':false,'fieldData':{}}"))].
Proof.
  assert (E : JSON.parse (req_text Sample.bare_event)
              = Returned (VObj [(lit "pageId", VStr (lit "p1"))]))
    by (vm_compute; reflexivity).
  assert (Hv : isValidSignature (req_text Sample.bare_event)
                 (req_signature Sample.bare_event) Sample.secret = Returned true)
    by (vm_compute; reflexivity).
  destruct (event_without_slug_is_not_skipped Sample.JSON_stringify Sample.Number_toString
              Sample.remote_empty Sample.secret (Some (lit "token")) (Some (lit "c1"))
              Sample.bare_event (VObj [(lit "pageId", VStr (lit "p1"))])
              E Hv eq_refl eq_refl) as [_ H].
  apply (H (mkFetchResponse 200 (quoted "{'items':[]}"))).
  - vm_compute. reflexivity.
  - intros first others N. vm_compute in N. discriminate N.
Defined.

Lemma unset_configuration_is_sent_witness :
  fetch_headers
    (mkFetch (lit "https://api.webflow.com/v2/collections/undefined/items?slug=hello")
             (lit "GET")
             [(lit "Authorization", lit "Bearer undefined");
              (lit "Content-Type", lit "application/json")] None)
  = [(lit "Authorization", lit "Bearer undefined");
     (lit "Content-Type", lit "application/json")]
  /\ In (mkFetch (lit "https://api.webflow.com/v2/collections/undefined/items?slug=hello")
                 (lit "GET")
                 [(lit "Authorization", lit "Bearer undefined");
                  (lit "Content-Type", lit "application/json")] None)
        (snd (run (POST Sample.JSON_stringify Sample.Number_toString Sample.remote_empty
                        Sample.secret None None Sample.event))).
Proof.
  assert (H : In (mkFetch
                    (lit "https://api.webflow.com/v2/collections/undefined/items?slug=hello")
                    (lit "GET")
                    [(lit "Authorization", lit "Bearer undefined");
                     (lit "Content-Type", lit "application/json")] None)
                 (snd (run (POST Sample.JSON_stringify Sample.Number_toString
                                 Sample.remote_empty Sample.secret None None Sample.event))))
    by (vm_compute; left; reflexivity).
  split; [|exact H].
  exact (proj1 (unset_configuration_is_sent Sample.JSON_stringify Sample.Number_toString
                  Sample.remote_empty Sample.secret Sample.event _ H)).
Defined.
